(** * A shallow embedding of the compass_perf load generator

    Sources: [src/compass_perf/metrics.py] (Sample, PerfMetrics),
    [src/dicom_sender.py] (DicomSender) and [src/config.py]
    (LoadProfileConfig, _env_int).

    Modelling conventions.
    - Python floats (perf_counter timestamps, latencies, rates, the load
      multiplier) are modelled as exact canonical rationals [Qc]; [Qc] has
      one representative per value, so Python's value equality is Rocq's
      [=].
    - Python ints are [Z]; list lengths are [nat].
    - External collaborators (pynetdicom, the clock, the environment) are
      inputs: what they return or raise is a parameter of each function. *)

From Stdlib Require Import QArith Qcanon ZArith Lia Ascii String.
From stdpp Require Import base list sorting gmap strings.

Open Scope Qc_scope.

(* ------------------------------------------------------------------ *)
(** ** Ordering on [Qc] for Python's [sorted], [min] and [max] *)

#[global] Instance Qcle_rel_dec : RelDecision Qcle.
Proof.
  intros x y. destruct (Qclt_le_dec y x) as [H|H].
  - right. apply Qclt_not_le. exact H.
  - left. exact H.
Defined.

#[global] Instance Qclt_rel_dec : RelDecision Qclt.
Proof.
  intros x y. destruct (Qclt_le_dec x y) as [H|H].
  - left. exact H.
  - right. apply Qcle_not_lt. exact H.
Defined.

#[global] Instance Qcle_total : Total Qcle.
Proof.
  intros x y. destruct (Qclt_le_dec x y) as [H|H].
  - left. apply Qclt_le_weak. exact H.
  - right. exact H.
Qed.

#[global] Instance Qcle_trans_inst : Transitive Qcle.
Proof. intros x y z. apply Qcle_trans. Qed.

#[global] Instance Qcle_antisymm : AntiSymm (=) Qcle.
Proof. intros x y. apply Qcle_antisym. Qed.

(** [float(n)] for a Python int [n] *)
Definition Qc_of_nat (n : nat) : Qc := Q2Qc (inject_Z (Z.of_nat n)).
Definition Qc_of_Z (z : Z) : Qc := Q2Qc (inject_Z z).

(* ------------------------------------------------------------------ *)
(** ** Sample (metrics.py) *)

(** The status object returned by [assoc.send_c_store]: [None], or a pydicom
    [Dataset] holding an optional (0000,0900) Status element and [others]
    further elements.  A [Dataset] is truthy iff it has an element. *)
Inductive PyStatus :=
  | StNone
  | StDataset (status : option Z) (others : nat).

Definition status_len (st : PyStatus) : nat :=
  match st with
  | StNone => 0
  | StDataset s k => (if s then 1 else 0) + k
  end.

Definition status_truthy (st : PyStatus) : bool :=
  match st with
  | StNone => false
  | StDataset _ _ => bool_decide (0 < status_len st)%nat
  end.

(** The value stored in [Sample.success].  The dataclass annotates it
    [bool], but Python stores whatever the constructor receives: a bool,
    or (through [status and ...]) the status object itself. *)
Inductive SuccessVal :=
  | SBool (b : bool)
  | SStatus (st : PyStatus).

(** Python truthiness of the stored value, as used by [if s.success]. *)
Definition truthy (v : SuccessVal) : bool :=
  match v with
  | SBool b => b
  | SStatus st => status_truthy st
  end.

(** The [error] payload: a plain string, or the f-string
    [f"Non-success status: {status!r}"], kept as the status it renders. *)
Inductive ErrMsg :=
  | EStr (s : string)
  | ENonSuccess (st : PyStatus).

Record Sample := mkSample {
  start_time : Qc;
  end_time : Qc;
  success : SuccessVal;
  status_code : option Z;
  error : option ErrMsg
}.

(** [Sample.latency_ms] *)
Definition latency_ms (s : Sample) : Qc := (end_time s - start_time s) * Qc_of_Z 1000.

(* ------------------------------------------------------------------ *)
(** ** PerfMetrics statistics, over the list returned by [self.samples] *)

Module Stats.

Definition total (samples : list Sample) : nat := length samples.

Definition successes (samples : list Sample) : nat :=
  length (filter (fun s => truthy (success s) = true) samples).

Definition failures (samples : list Sample) : nat :=
  length (filter (fun s => truthy (success s) = false) samples).

Definition error_rate (samples : list Sample) : Qc :=
  if Nat.eqb (total samples) 0 then 0
  else Qc_of_nat (failures samples) / Qc_of_nat (total samples).

Definition _latencies (samples : list Sample) : list Qc :=
  map latency_ms (filter (fun s => truthy (success s) = true) samples).

(** Python's [min] over a non-empty list: keep the current value unless
    a later one is strictly smaller. *)
Definition py_min (x : Qc) (xs : list Qc) : Qc :=
  fold_left (fun m y => if decide (y < m) then y else m) xs x.

Definition py_max (x : Qc) (xs : list Qc) : Qc :=
  fold_left (fun m y => if decide (m < y) then y else m) xs x.

Definition sum_Qc (xs : list Qc) : Qc := fold_right Qcplus 0 xs.

Definition min_latency_ms (samples : list Sample) : option Qc :=
  match _latencies samples with
  | [] => None
  | x :: xs => Some (py_min x xs)
  end.

(** [statistics.mean] sums exactly and divides by the count. *)
Definition avg_latency_ms (samples : list Sample) : option Qc :=
  match _latencies samples with
  | [] => None
  | lat => Some (sum_Qc lat / Qc_of_nat (length lat))
  end.

(** [k = int(len(lat) * 0.95) - 1].  The product is a binary64 one; its
    truncation is [floor(95 n / 100)] for every length below 2^40 (the
    representation error of 0.95 is under half an ulp of [n * 0.95] when
    [20 | n], and [95 n / 100] is at least 1/20 away from an integer
    otherwise), so it is modelled by the integer quotient. *)
Definition p95_index (n : nat) : Z :=
  let k := (Z.of_nat n * 95 / 100 - 1)%Z in
  Z.max 0 (Z.min k (Z.of_nat n - 1)).

Definition p95_latency_ms (samples : list Sample) : option Qc :=
  let lat := merge_sort Qcle (_latencies samples) in
  match lat with
  | [] => None
  | _ => nth_error lat (Z.to_nat (p95_index (length lat)))
  end.

Definition throughput_per_second (samples : list Sample) (window_seconds : option Qc) : Qc :=
  match samples with
  | [] => 0
  | s0 :: rest =>
      let end_t := py_max (end_time s0) (map end_time rest) in
      let start_t :=
        match window_seconds with
        | None => py_min (start_time s0) (map start_time rest)
        | Some w => end_t - w
        end in
      let duration := py_max (end_t - start_t) [Q2Qc (1 # 1000000000)] in
      let count := length (filter (fun s => bool_decide (start_t <= start_time s)) samples) in
      Qc_of_nat count / duration
  end.

End Stats.

(** Samples of end-to-end scenario B: eight successes with latencies
    10, 20, ..., 80 ms and two failures. *)
Definition ok_sample (lat_ms : Z) : Sample :=
  mkSample 0 (Qc_of_Z lat_ms / Qc_of_Z 1000) (SBool true) (Some 0%Z) None.
Definition failed_sample : Sample :=
  mkSample 0 (Qc_of_Z 5 / Qc_of_Z 1000) (SBool false) None (Some (EStr "Association failed")).
Definition scenarioB : list Sample :=
  [ok_sample 30; ok_sample 10; failed_sample; ok_sample 80; ok_sample 50;
   ok_sample 20; failed_sample; ok_sample 70; ok_sample 40; ok_sample 60].

(* ------------------------------------------------------------------ *)
(** ** PerfMetrics as an object in a Python heap

    [_samples] is a list object in the heap holding references to Sample
    objects; [samples] returns a shallow copy ([list(self._samples)]), a new
    list object holding the same references.  The lock makes each method an
    atomic step, so methods are modelled sequentially. *)

Definition loc := positive.

Inductive Obj :=
  | OList (items : list loc)
  | OSample (s : Sample).

Abbreviation heap := (gmap loc Obj).

Record PerfMetrics := mkPerfMetrics { _samples : loc }.

(** A heap action that may raise (or meet an ill-formed heap): [None]. *)
Definition M (A : Type) : Type := heap -> option (A * heap).

Definition retM {A} (a : A) : M A := fun h => Some (a, h).
Definition failM {A} : M A := fun _ => None.
Definition bindM {A B} (m : M A) (k : A -> M B) : M B :=
  fun h => match m h with Some (a, h') => k a h' | None => None end.

Notation "'let!' x ':=' m 'in' k" := (bindM m (fun x => k))
  (at level 200, x name, m at level 100, k at level 200).

(** Allocate a new object at a location not in use. *)
Definition alloc (o : Obj) : M loc :=
  fun h => let l := fresh (dom h) in Some (l, <[l := o]> h).

Fixpoint read_samples (h : heap) (items : list loc) : option (list Sample) :=
  match items with
  | [] => Some []
  | i :: is =>
      match h !! i with
      | Some (OSample s) =>
          match read_samples h is with
          | Some xs => Some (s :: xs)
          | None => None
          end
      | _ => None
      end
  end.

(** The sample values a list object refers to. *)
Definition list_contents (h : heap) (l : loc) : option (list Sample) :=
  match h !! l with
  | Some (OList items) => read_samples h items
  | _ => None
  end.

Definition read_list (l : loc) : M (list Sample) :=
  fun h => match list_contents h l with Some xs => Some (xs, h) | None => None end.

Module PM.

(** [record]: [self._samples.append(sample)]; the caller built the Sample
    object, which is allocated first. *)
Definition record (pm : PerfMetrics) (s : Sample) : M unit :=
  let! sl := alloc (OSample s) in
  fun h => match h !! _samples pm with
           | Some (OList items) => Some (tt, <[_samples pm := OList (items ++ [sl])]> h)
           | _ => None
           end.

(** [samples]: [list(self._samples)] *)
Definition samples (pm : PerfMetrics) : M loc :=
  fun h => match h !! _samples pm with
           | Some (OList items) => alloc (OList items) h
           | _ => None
           end.

(** A property that reads [self.samples] once and computes on it. *)
Definition over_samples {A} (pm : PerfMetrics) (f : list Sample -> A) : M A :=
  let! l := samples pm in
  let! xs := read_list l in
  retM (f xs).

Definition total (pm : PerfMetrics) : M nat := over_samples pm Stats.total.
Definition successes (pm : PerfMetrics) : M nat := over_samples pm Stats.successes.
Definition failures (pm : PerfMetrics) : M nat := over_samples pm Stats.failures.

Definition error_rate (pm : PerfMetrics) : M Qc :=
  let! t := total pm in
  if Nat.eqb t 0 then retM 0 else
  let! f := failures pm in
  let! t' := total pm in
  retM (Qc_of_nat f / Qc_of_nat t').

Definition min_latency_ms (pm : PerfMetrics) : M (option Qc) :=
  over_samples pm Stats.min_latency_ms.
Definition avg_latency_ms (pm : PerfMetrics) : M (option Qc) :=
  over_samples pm Stats.avg_latency_ms.
Definition p95_latency_ms (pm : PerfMetrics) : M (option Qc) :=
  over_samples pm Stats.p95_latency_ms.
Definition throughput_per_second (pm : PerfMetrics) (w : option Qc) : M Qc :=
  over_samples pm (fun xs => Stats.throughput_per_second xs w).

(** Values of the snapshot dict. *)
Inductive SnapVal :=
  | VInt (n : nat)
  | VFloat (q : Qc)
  | VOptFloat (o : option Qc).

(** [snapshot]; [now] is the value [time.time()] returns, evaluated last. *)
Definition snapshot (pm : PerfMetrics) (now : Qc) : M (list (string * SnapVal)) :=
  let! t := total pm in
  let! s := successes pm in
  let! f := failures pm in
  let! er := error_rate pm in
  let! mn := min_latency_ms pm in
  let! av := avg_latency_ms pm in
  let! p := p95_latency_ms pm in
  let! th := throughput_per_second pm None in
  retM [("total", VInt t); ("successes", VInt s); ("failures", VInt f);
        ("error_rate", VFloat er); ("min_latency_ms", VOptFloat mn);
        ("avg_latency_ms", VOptFloat av); ("p95_latency_ms", VOptFloat p);
        ("throughput_per_second", VFloat th); ("timestamp", VFloat now)].

End PM.

(** Python [d[key]] on the dict built by [snapshot] (its keys are distinct). *)
Fixpoint dict_get (key : string) (d : list (string * PM.SnapVal)) : option PM.SnapVal :=
  match d with
  | [] => None
  | (k, v) :: d' => if String.eqb k key then Some v else dict_get key d'
  end.

(** In-place operations a caller may apply to a list object; [None] is the
    IndexError Python raises (before changing anything). *)
Inductive ListOp :=
  | LAppend (x : loc)
  | LSetItem (i : Z) (x : loc)
  | LDelItem (i : Z)
  | LPop
  | LClear
  | LReverse.

Definition py_index (n : nat) (i : Z) : option nat :=
  let j := if (i <? 0)%Z then (i + Z.of_nat n)%Z else i in
  if ((0 <=? j) && (j <? Z.of_nat n))%Z then Some (Z.to_nat j) else None.

Definition list_op (op : ListOp) (items : list loc) : option (list loc) :=
  match op with
  | LAppend x => Some (items ++ [x])
  | LSetItem i x =>
      match py_index (length items) i with
      | Some j => Some (<[j := x]> items)
      | None => None
      end
  | LDelItem i =>
      match py_index (length items) i with
      | Some j => Some (take j items ++ drop (S j) items)
      | None => None
      end
  | LPop => match items with [] => None | _ => Some (removelast items) end
  | LClear => Some []
  | LReverse => Some (rev items)
  end.

Definition mutate_list (l : loc) (op : ListOp) : M unit :=
  fun h => match h !! l with
           | Some (OList items) =>
               match list_op op items with
               | Some items' => Some (tt, <[l := OList items']> h)
               | None => None
               end
           | _ => None
           end.

(** A client of one collector: it calls the collector's methods and mutates
    the lists [samples] handed back to it ([AMutate j op] acts on the [j]-th
    returned list).  A call that raises leaves the heap as it was. *)
Inductive Method :=
  | MRecord (s : Sample)
  | MSamples
  | MTotal | MSuccesses | MFailures | MErrorRate
  | MMinLatency | MAvgLatency | MP95Latency
  | MThroughput (w : option Qc)
  | MSnapshot (now : Qc).

Inductive Action :=
  | ACall (m : Method)
  | AMutate (j : nat) (op : ListOp).

Definition call (pm : PerfMetrics) (m : Method) : M (option loc) :=
  let drop_result {A} (c : M A) : M (option loc) := let! _ := c in retM None in
  match m with
  | MRecord s => drop_result (PM.record pm s)
  | MSamples => let! l := PM.samples pm in retM (Some l)
  | MTotal => drop_result (PM.total pm)
  | MSuccesses => drop_result (PM.successes pm)
  | MFailures => drop_result (PM.failures pm)
  | MErrorRate => drop_result (PM.error_rate pm)
  | MMinLatency => drop_result (PM.min_latency_ms pm)
  | MAvgLatency => drop_result (PM.avg_latency_ms pm)
  | MP95Latency => drop_result (PM.p95_latency_ms pm)
  | MThroughput w => drop_result (PM.throughput_per_second pm w)
  | MSnapshot now => drop_result (PM.snapshot pm now)
  end.

Definition step (pm : PerfMetrics) (st : heap * list loc) (a : Action) : heap * list loc :=
  let '(h, rets) := st in
  match a with
  | ACall m =>
      match call pm m h with
      | Some (Some l, h') => (h', rets ++ [l])
      | Some (None, h') => (h', rets)
      | None => (h, rets)
      end
  | AMutate j op =>
      match rets !! j with
      | Some l =>
          match mutate_list l op h with
          | Some (_, h') => (h', rets)
          | None => (h, rets)
          end
      | None => (h, rets)
      end
  end.

Definition run_client (pm : PerfMetrics) (tr : list Action) (st : heap * list loc) : heap * list loc :=
  fold_left (step pm) tr st.

(** The samples passed to [record] along a client trace, in order. *)
Fixpoint recorded (tr : list Action) : list Sample :=
  match tr with
  | [] => []
  | ACall (MRecord s) :: tr' => s :: recorded tr'
  | _ :: tr' => recorded tr'
  end.

(* ------------------------------------------------------------------ *)
(** ** Python exceptions, results and floats *)

(** A raised exception: whether its class derives from [Exception] (what
    [except Exception] catches; [SystemExit] and [KeyboardInterrupt] do
    not), and its [str()]. *)
Record PyExc := mkExc { exc_is_Exception : bool; exc_str : string }.

Definition ValueError (msg : string) : PyExc := mkExc true msg.
Definition AttributeError (msg : string) : PyExc := mkExc true msg.
Definition StopIteration : PyExc := mkExc true "".

Inductive Result (A : Type) :=
  | Ok (a : A)
  | Raise (e : PyExc).
Arguments Ok {A} a.
Arguments Raise {A} e.

(** A Python float value: finite, infinite (with its sign) or NaN. *)
Inductive PyFloat :=
  | PFin (q : Qc)
  | PInf (neg : bool)
  | PNaN.

(** [float(n) * x] for a Python int [n] and a float [x]. *)
Definition int_mul_float (n : Z) (x : PyFloat) : PyFloat :=
  match x with
  | PFin q => PFin (Qc_of_Z n * q)
  | PInf neg => if (n =? 0)%Z then PNaN else PInf (xorb neg (n <? 0)%Z)
  | PNaN => PNaN
  end.

(** [float(n)] for a Python int [n] does not raise OverflowError: [n]
    rounds to a finite double exactly when [|n| < 2^1024 - 2^970]. *)
Definition int_to_float_ok (n : Z) : Prop := (Z.abs n < 2 ^ 1024 - 2 ^ 970)%Z.

(** [x > 0] *)
Definition float_gt0 (x : PyFloat) : bool :=
  match x with
  | PFin q => bool_decide (0 < q)
  | PInf neg => negb neg
  | PNaN => false
  end.

(** [1.0 / x] for [x > 0] *)
Definition float_inv_pos (x : PyFloat) : Qc :=
  match x with
  | PFin q => 1 / q
  | _ => 0
  end.

(* ------------------------------------------------------------------ *)
(** ** Configuration (config.py) *)

(** Characters [str.strip()] and [int()]/[float()] treat as whitespace
    (the ASCII ones). *)
Definition is_py_space (c : ascii) : bool :=
  let n := Ascii.nat_of_ascii c in
  ((9 <=? n) && (n <=? 13) || (28 <=? n) && (n <=? 32))%nat.

Fixpoint lstrip (cs : list ascii) : list ascii :=
  match cs with
  | c :: cs' => if is_py_space c then lstrip cs' else cs
  | [] => []
  end.

Definition strip (cs : list ascii) : list ascii := rev (lstrip (rev (lstrip cs))).

Definition digit_val (c : ascii) : option Z :=
  let n := Z.of_nat (Ascii.nat_of_ascii c) in
  if ((48 <=? n) && (n <=? 57))%Z then Some (n - 48)%Z else None.

Definition to_lower (c : ascii) : ascii :=
  let n := Ascii.nat_of_ascii c in
  if ((65 <=? n) && (n <=? 90))%nat then Ascii.ascii_of_nat (n + 32) else c.

(** A run of decimal digits, single underscores allowed between digits
    (PEP 515), read as far as it goes: value, digit count, rest. *)
Fixpoint digit_run_from (cs : list ascii) (acc : Z) (cnt : nat) : Z * nat * list ascii :=
  match cs with
  | [] => (acc, cnt, [])
  | c :: cs' =>
      match digit_val c with
      | Some d => digit_run_from cs' (acc * 10 + d)%Z (S cnt)
      | None =>
          if ascii_dec c "_" then
            match cs' with
            | c2 :: cs'' =>
                match digit_val c2 with
                | Some d => digit_run_from cs'' (acc * 10 + d)%Z (S cnt)
                | None => (acc, cnt, cs)
                end
            | [] => (acc, cnt, cs)
            end
          else (acc, cnt, cs)
      end
  end.

Definition digit_run (cs : list ascii) : option (Z * nat * list ascii) :=
  match cs with
  | c :: cs' =>
      match digit_val c with
      | Some d => Some (digit_run_from cs' d 1)
      | None => None
      end
  | [] => None
  end.

(** An optional sign: whether it is [-], and the rest. *)
Definition split_sign (cs : list ascii) : bool * list ascii :=
  match cs with
  | "-"%char :: cs' => (true, cs')
  | "+"%char :: cs' => (false, cs')
  | _ => (false, cs)
  end.

(** [int(s)] on a str, base 10; [None] is the ValueError. *)
Definition py_int (s : string) : option Z :=
  let '(neg, body) := split_sign (strip (list_ascii_of_string s)) in
  match digit_run body with
  | Some (v, _, []) => Some (if neg then (- v)%Z else v)
  | _ => None
  end.

Definition pow10 (e : Z) : Qc :=
  if (0 <=? e)%Z then Qc_of_Z (10 ^ e) else 1 / Qc_of_Z (10 ^ (- e)).

(** The optional exponent of a float literal. *)
Definition parse_exponent (cs : list ascii) : option Z :=
  match cs with
  | [] => Some 0%Z
  | e :: cs' =>
      if ascii_dec (to_lower e) "e" then
        let '(neg, digits) := split_sign cs' in
        match digit_run digits with
        | Some (v, _, []) => Some (if neg then (- v)%Z else v)
        | _ => None
        end
      else None
  end.

(** [float(s)] on a str; [None] is the ValueError.  A finite literal is
    kept as its exact decimal value. *)
Definition py_float (s : string) : option PyFloat :=
  let '(neg, body) := split_sign (strip (list_ascii_of_string s)) in
  let low := string_of_list_ascii (map to_lower body) in
  if String.eqb low "inf" || String.eqb low "infinity" then Some (PInf neg)
  else if String.eqb low "nan" then Some PNaN
  else
    let '(iv, ic, r1) :=
      match digit_run body with Some r => r | None => (0%Z, 0%nat, body) end in
    let '(fv, fc, r2) :=
      match r1 with
      | "."%char :: r1' =>
          match digit_run r1' with Some r => r | None => (0%Z, 0%nat, r1') end
      | _ => (0%Z, 0%nat, r1)
      end in
    if Nat.eqb (ic + fc) 0 then None else
    match parse_exponent r2 with
    | None => None
    | Some ex =>
        let mant := (iv * 10 ^ Z.of_nat fc + fv)%Z in
        let q := Qc_of_Z mant * pow10 (ex - Z.of_nat fc) in
        Some (PFin (if neg then - q else q))
    end.

(** The process environment, [os.environ]. *)
Abbreviation environ := (gmap string string).

Definition _env_int (env : environ) (name : string) (default : Z) : Z :=
  match env !! name with
  | None => default
  | Some value =>
      match py_int value with
      | Some n => n
      | None => default
      end
  end.

Record LoadProfileConfig := mkLoadProfileConfig {
  peak_images_per_second : Z;
  load_multiplier : PyFloat;
  test_duration_seconds : Z;
  concurrency : Z
}.

(** [LoadProfileConfig.from_env]: the keyword arguments are evaluated in
    order; [float(os.getenv("LOAD_MULTIPLIER", "3.0"))] has no handler. *)
Definition LoadProfileConfig_from_env (env : environ) : Result LoadProfileConfig :=
  let peak := _env_int env "PEAK_IMAGES_PER_SECOND" 50 in
  let raw := match env !! "LOAD_MULTIPLIER" with Some v => v | None => "3.0" end in
  match py_float raw with
  | None => Raise (ValueError ("could not convert string to float: " ++ raw))
  | Some mult =>
      let dur := _env_int env "TEST_DURATION_SECONDS" 300 in
      let conc := _env_int env "LOAD_CONCURRENCY" 8 in
      Ok (mkLoadProfileConfig peak mult dur conc)
  end.

(* ------------------------------------------------------------------ *)
(** ** DicomSender (dicom_sender.py) *)

(** A requested presentation context: abstract syntax UID and the
    transfer syntaxes proposed for it. *)
Record PresentationContext := mkPresentationContext {
  abstract_syntax : string;
  transfer_syntax : list string
}.

Definition Verification : string := "1.2.840.10008.1.1".

(** pynetdicom's default transfer syntaxes, used by [add_requested_context]
    when none is given. *)
Definition DEFAULT_TRANSFER_SYNTAXES : list string :=
  ["1.2.840.10008.1.2"; "1.2.840.10008.1.2.1"; "1.2.840.10008.1.2.1.99"; "1.2.840.10008.1.2.2"].

Record AE := mkAE { ae_title : list ascii; requested_contexts : list PresentationContext }.

(** [ae.add_requested_context(abstract_syntax)]: pynetdicom refuses a
    129th requested context. *)
Definition add_requested_context (ae : AE) (abstract_syntax : string) : Result AE :=
  if (128 <=? length (requested_contexts ae))%nat then
    Raise (ValueError "Failed to add the requested presentation context as there are already the maximum allowed number of requested contexts")
  else
    Ok (mkAE (ae_title ae)
          (requested_contexts ae ++ [mkPresentationContext abstract_syntax DEFAULT_TRANSFER_SYNTAXES])).

Record DicomEndpointConfig := mkDicomEndpointConfig {
  host : string;
  port : Z;
  remote_ae_title : string;
  local_ae_title : string
}.

Record DicomSender := mkDicomSender {
  endpoint : DicomEndpointConfig;
  load_profile : LoadProfileConfig
}.

(** [_build_ae].  [AllStoragePresentationContexts] is pynetdicom's list;
    [ctor] is what [AE(ae_title=...)] does with the ASCII-encoded local
    title: [None] when it builds an AE (with no requested context), [Some e]
    when it raises [e]. *)
Definition _build_ae (AllStoragePresentationContexts : list PresentationContext)
    (title : list ascii) (ctor : option PyExc) : Result AE :=
  match ctor with
  | Some e => Raise e
  | None =>
      let ae := mkAE title [] in
      let storage_contexts := take 127 AllStoragePresentationContexts in
      let ae := mkAE (ae_title ae) (requested_contexts ae ++ storage_contexts) in
      add_requested_context ae Verification
  end.

(** [local_ae_title.encode("ascii", "ignore")] on an ASCII-representable
    title. *)
Definition encode_ascii (s : string) : list ascii :=
  filter (fun c => (Ascii.nat_of_ascii c <? 128)%nat) (list_ascii_of_string s).

(** What the outside world does during one [_send_single_dataset] call. *)
Inductive AssocOutcome :=
  | AssocRaises (e : PyExc)
  | AssocReturns (is_established : bool).

Inductive StoreOutcome :=
  | StoreRaises (e : PyExc)
  | StoreReturns (status : PyStatus).

Record Transport := mkTransport {
  t_ctor : option PyExc;       (** [AE(...)] in [_build_ae] *)
  t_start : Qc;                (** [time.perf_counter()] at [start] *)
  t_end : Qc;                  (** [time.perf_counter()] at [end] *)
  t_assoc : AssocOutcome;      (** [ae.associate(...)] *)
  t_store : StoreOutcome;      (** [assoc.send_c_store(ds)] *)
  t_release : option PyExc;    (** [assoc.release()] raising *)
  t_shutdown : option PyExc    (** [ae.shutdown()] raising *)
}.

(** [status and status.Status in (0x0000,)]: a falsy status is the value
    itself; a truthy Dataset without a Status element raises. *)
Definition success_value (status : PyStatus) : Result SuccessVal :=
  if status_truthy status then
    match status with
    | StDataset (Some code) _ => Ok (SBool (code =? 0)%Z)
    | _ => Raise (AttributeError "'Dataset' object has no attribute 'Status'")
    end
  else Ok (SStatus status).

(** [getattr(status, "Status", None)] *)
Definition status_attr (status : PyStatus) : option Z :=
  match status with
  | StDataset code _ => code
  | StNone => None
  end.

Section SendSingle.

Variable AllStoragePresentationContexts : list PresentationContext.

(** [_send_single_dataset(ds, metrics)]: the collector's sample values
    before and after (each [metrics.record] appends one), and whether the
    call returned or raised.  The dataset is opaque: only [t] depends on it. *)
Definition _send_single_dataset (self : DicomSender) (t : Transport)
    (metrics : list Sample) : list Sample * Result unit :=
  let start := t_start t in
  match _build_ae AllStoragePresentationContexts
          (encode_ascii (local_ae_title (endpoint self))) (t_ctor t) with
  | Raise e => (metrics, Raise e)
  | Ok ae =>
      (* try: *)
      let body : list Sample * Result unit :=
        match t_assoc t with
        | AssocRaises e => (metrics, Raise e)
        | AssocReturns false =>
            (metrics ++ [mkSample start (t_end t) (SBool false) None
                           (Some (EStr "Association failed"))], Ok tt)
        | AssocReturns true =>
            match t_store t with
            | StoreRaises e => (metrics, Raise e)
            | StoreReturns status =>
                match t_release t with
                | Some e => (metrics, Raise e)
                | None =>
                    match success_value status with
                    | Raise e => (metrics, Raise e)
                    | Ok success =>
                        (metrics ++ [mkSample start (t_end t) success (status_attr status)
                                       (if truthy success then None
                                        else Some (ENonSuccess status))], Ok tt)
                    end
                end
            end
        end in
      (* except Exception as exc: *)
      let handled :=
        match body with
        | (m, Raise e) =>
            if exc_is_Exception e then
              (m ++ [mkSample start (t_end t) (SBool false) None (Some (EStr (exc_str e)))], Ok tt)
            else (m, Raise e)
        | r => r
        end in
      (* finally: ae.shutdown() *)
      match t_shutdown t with
      | Some e => (handled.1, Raise e)
      | None => handled
      end
  end.

End SendSingle.

(** One iteration of the submission loop of [load_test_for_duration]:
    the dataset taken from the cycle, [now], the argument of [time.sleep]
    if it is called, the [time.perf_counter()] reading used for
    [next_send_time], and the new [next_send_time]. *)
Record Submission (D : Type) := mkSubmission {
  sub_dataset : D;
  sub_now : Qc;
  sub_sleep : option Qc;
  sub_after : Qc;
  sub_sched : Qc
}.
Arguments mkSubmission {D}.
Arguments sub_dataset {D}.
Arguments sub_now {D}.
Arguments sub_sleep {D}.
Arguments sub_after {D}.
Arguments sub_sched {D}.

(** [next(ds_cycle)] for the [i]-th call on [itertools.cycle(datasets)]. *)
Definition cycle_next {D} (datasets : list D) (i : nat) : option D :=
  match datasets with
  | [] => None
  | _ => nth_error datasets (i mod length datasets)
  end.

(** The [while] loop.  [clock] lists the successive readings of
    [time.perf_counter()] in the main thread; [None] when it runs out (the
    model then says nothing).  Returns the iterations and the exception
    that ended the loop, if any. *)
Fixpoint submit_loop {D} (datasets : list D) (period stop_at : Qc) (fuel : nat)
    (clock : list Qc) (next_send_time : Qc) (i : nat)
    : option (list (Submission D) * option PyExc) :=
  match fuel with
  | O => None
  | S fuel' =>
      match clock with
      | [] => None
      | c :: clock1 =>
          if decide (c < stop_at) then
            match clock1 with
            | [] => None
            | now :: clock2 =>
                let slept :=
                  if bool_decide (0 < period) && bool_decide (now < next_send_time)
                  then Some (Stats.py_max (next_send_time - now) [0]) else None in
                match clock2 with
                | [] => None
                | after :: clock3 =>
                    let next_send_time' := after + period in
                    match cycle_next datasets i with
                    | None => Some ([], Some StopIteration)
                    | Some ds =>
                        match submit_loop datasets period stop_at fuel' clock3 next_send_time' (S i) with
                        | Some (subs, exc) =>
                            Some (mkSubmission ds now slept after next_send_time' :: subs, exc)
                        | None => None
                        end
                    end
                end
            end
          else Some ([], None)
      end
  end.

Record RunTrace (D : Type) := mkRunTrace {
  rt_submissions : list (Submission D);
  rt_metrics : list Sample;
  rt_result : Result nat
}.
Arguments mkRunTrace {D}.
Arguments rt_submissions {D}.
Arguments rt_metrics {D}.
Arguments rt_result {D}.

(** The first exception [f.result()] re-raises, in completion order. *)
Fixpoint first_raise (rs : list (Result unit)) : option PyExc :=
  match rs with
  | [] => None
  | Raise e :: _ => Some e
  | Ok _ :: rs' => first_raise rs'
  end.

Section LoadTest.

Variable AllStoragePresentationContexts : list PresentationContext.

(** The pool's worker threads run the submitted tasks; each task's
    [metrics.record] is atomic (under the collector's lock), so the
    collector sees the tasks one after the other in [completion] order
    (task [j] is the [j]-th submission and meets the world [workers j]). *)
Definition run_tasks (self : DicomSender) (workers : nat -> Transport)
    (completion : list nat) (metrics : list Sample) : list Sample * list (Result unit) :=
  fold_left (fun '(m, rs) j =>
               let '(m', r) := _send_single_dataset AllStoragePresentationContexts self (workers j) m in
               (m', rs ++ [r]))
            completion (metrics, []).

(** The target rate and the period of [load_test_for_duration]. *)
Definition target_rate (self : DicomSender) (rate_limit_images_per_second : option PyFloat) : PyFloat :=
  match rate_limit_images_per_second with
  | Some r => r
  | None => int_mul_float (peak_images_per_second (load_profile self))
                          (load_multiplier (load_profile self))
  end.

Definition send_period (target : PyFloat) : Qc :=
  if float_gt0 target then float_inv_pos target else 0.

(** [load_test_for_duration].  [clock] are the main thread's
    [time.perf_counter()] readings, [workers] what each task meets,
    [completion] the order in which the tasks finish. *)
Definition load_test_for_duration {D} (self : DicomSender) (datasets : list D)
    (metrics : list Sample) (duration_seconds : Z) (concurrency_arg : option Z)
    (rate_limit_images_per_second : option PyFloat)
    (clock : list Qc) (workers : nat -> Transport) (completion : list nat)
    : option (RunTrace D) :=
  let conc := match concurrency_arg with
              | None => concurrency (load_profile self)
              | Some c => c
              end in
  let period := send_period (target_rate self rate_limit_images_per_second) in
  match clock with
  | [] => None
  | c0 :: clock1 =>
      let stop_at := c0 + Qc_of_Z duration_seconds in
      (* ThreadPoolExecutor(max_workers=conc) *)
      if (conc <=? 0)%Z then
        Some (mkRunTrace [] metrics (Raise (ValueError "max_workers must be greater than 0")))
      else
        match clock1 with
        | [] => None
        | c1 :: clock2 =>
            match submit_loop datasets period stop_at (S (length clock2)) clock2 c1 0 with
            | None => None
            | Some (subs, exc) =>
                (* as_completed / f.result(), then executor.shutdown(wait=True) *)
                let '(metrics', results) := run_tasks self workers completion metrics in
                let total_sent := length subs in
                Some (mkRunTrace subs metrics'
                        match exc with
                        | Some e => Raise e
                        | None =>
                            match first_raise results with
                            | Some e => Raise e
                            | None => Ok total_sent
                            end
                        end)
            end
        end
  end.

End LoadTest.

(** A collector whose [_samples] list is the object at location 1. *)
Definition demo_pm : PerfMetrics := mkPerfMetrics 1%positive.

(** A heap with that collector's list, empty. *)
Definition demo_heap : heap := {[ 1%positive := OList [] ]}.

(** A client that records the samples of scenario B, takes two copies and
    clears the first, drops the last element of the second. *)
Definition demo_trace : list Action :=
  map (fun s => ACall (MRecord s)) scenarioB ++
  [ACall MSamples; AMutate 0 LClear; ACall MSamples; AMutate 1 (LDelItem (-1));
   ACall (MSnapshot 0)].

(** The collector after recording the samples of scenario B. *)
Definition scenarioB_heap : heap :=
  (run_client demo_pm (map (fun s => ACall (MRecord s)) scenarioB) (demo_heap, [])).1.

(** A client trace with no [record]: copies, their mutation, reads. *)
Definition no_record_trace : list Action :=
  [ACall MSamples; AMutate 0 LClear; ACall MTotal; ACall (MSnapshot (Qc_of_Z 3));
   ACall MSamples; AMutate 1 (LDelItem (-1)); ACall (MThroughput None)].

(* ------------------------------------------------------------------ *)
(** ** The rest of config.py *)

(** [_env_str(name, default)] *)
Definition _env_str (env : environ) (name : string) (default : string) : string :=
  match env !! name with
  | Some value => value
  | None => default
  end.

(** [DicomEndpointConfig.from_env]; [x or "PERF_SENDER"] replaces an
    empty (falsy) string. *)
Definition DicomEndpointConfig_from_env (env : environ) : DicomEndpointConfig :=
  mkDicomEndpointConfig
    (_env_str env "COMPASS_HOST" "127.0.0.1")
    (_env_int env "COMPASS_PORT" 11112)
    (_env_str env "COMPASS_AE_TITLE" "COMPASS")
    (let t := _env_str env "LOCAL_AE_TITLE" "PERF_SENDER" in
     if String.eqb t "" then "PERF_SENDER" else t).

(** [str(n)] for a Python int: its decimal digits, most significant
    first, after a [-] when it is negative.  [fuel] bounds the number of
    digits; the bit length of [n] is enough. *)
Definition digit_char (d : Z) : ascii := Ascii.ascii_of_nat (48 + Z.to_nat d).

Fixpoint decimal_digits (fuel : nat) (n : Z) : list ascii :=
  match fuel with
  | O => []
  | S f =>
      if (n <? 10)%Z then [digit_char n]
      else decimal_digits f (n / 10) ++ [digit_char (n mod 10)]
  end.

Definition py_str_int (n : Z) : string :=
  let body := decimal_digits (S (Z.to_nat (Z.log2 (Z.abs n)))) (Z.abs n) in
  string_of_list_ascii (if (n <? 0)%Z then "-"%char :: body else body).

(* ------------------------------------------------------------------ *)
(** ** DicomSender.ping *)

Inductive EchoOutcome :=
  | EchoRaises (e : PyExc)
  | EchoReturns (status : PyStatus).

(** What the outside world does during one [ping] call. *)
Record EchoTransport := mkEchoTransport {
  e_ctor : option PyExc;       (** [AE(...)] in [_build_ae] *)
  e_assoc : AssocOutcome;      (** [ae.associate(..., timeout=...)] *)
  e_echo : EchoOutcome;        (** [assoc.send_c_echo()] *)
  e_release : option PyExc;    (** [assoc.release()] raising *)
  e_shutdown : option PyExc    (** [ae.shutdown()] raising *)
}.

Section Ping.

Variable AllStoragePresentationContexts : list PresentationContext.

(** [ping]: [try] with only a [finally]; [bool(status) and status.Status
    == 0x0000]. *)
Definition ping (self : DicomSender) (t : EchoTransport) : Result bool :=
  match _build_ae AllStoragePresentationContexts
          (encode_ascii (local_ae_title (endpoint self))) (e_ctor t) with
  | Raise e => Raise e
  | Ok ae =>
      let body : Result bool :=
        match e_assoc t with
        | AssocRaises e => Raise e
        | AssocReturns false => Ok false
        | AssocReturns true =>
            match e_echo t with
            | EchoRaises e => Raise e
            | EchoReturns status =>
                match e_release t with
                | Some e => Raise e
                | None =>
                    if status_truthy status then
                      match status with
                      | StDataset (Some code) _ => Ok (code =? 0)%Z
                      | _ => Raise (AttributeError "'Dataset' object has no attribute 'Status'")
                      end
                    else Ok false
                end
            end
        end in
      match e_shutdown t with
      | Some e => Raise e
      | None => body
      end
  end.

End Ping.

(** Every exception the [try] block of [_send_single_dataset] meets is an
    [Exception] (not a bare [BaseException]): the ones [associate],
    [send_c_store] and [release] may raise ([success_value] only raises an
    [AttributeError]). *)
Definition body_caught (t : Transport) : bool :=
  match t_assoc t with
  | AssocRaises e => exc_is_Exception e
  | AssocReturns false => true
  | AssocReturns true =>
      match t_store t with
      | StoreRaises e => exc_is_Exception e
      | StoreReturns _ =>
          match t_release t with
          | Some e => exc_is_Exception e
          | None => true
          end
      end
  end.

(** The pacing of the submission loop, relative to the clock readings:
    starting from the scheduled time [prev], each iteration sleeps
    [prev - now] exactly when [period > 0] and [now < prev], and schedules
    the next submission [period] after its own [time.perf_counter()]
    reading. *)
Fixpoint paced {D} (period prev : Qc) (subs : list (Submission D)) : Prop :=
  match subs with
  | [] => True
  | s :: ss =>
      sub_sleep s =
        (if bool_decide (0 < period) && bool_decide (sub_now s < prev)
         then Some (prev - sub_now s) else None) /\
      sub_sched s = sub_after s + period /\
      paced period (sub_sched s) ss
  end.

(** A sender with the default endpoint and load profile. *)
Definition demo_sender : DicomSender :=
  mkDicomSender (mkDicomEndpointConfig "127.0.0.1" 11112 "COMPASS" "PERF_SENDER")
                (mkLoadProfileConfig 50 (PFin (Qc_of_Z 3)) 300 8).

(** A store that succeeds: association established, Status 0x0000. *)
Definition ok_transport (t0 t1 : Qc) : Transport :=
  mkTransport None t0 t1 (AssocReturns true) (StoreReturns (StDataset (Some 0%Z) 1))
              None None.

(** A store answered by an empty Dataset (no Status element). *)
Definition empty_status_transport : Transport :=
  mkTransport None 0 1 (AssocReturns true) (StoreReturns (StDataset None 0)) None None.

(** [AE(...)] raising. *)
Definition ctor_fails_transport : Transport :=
  mkTransport (Some (ValueError "invalid AE title")) 0 1 (AssocReturns true)
              (StoreReturns (StDataset (Some 0%Z) 1)) None None.

(** Clock readings of a one-second run with one submission: [stop_at] = 1,
    [next_send_time] = 0, one iteration at 0, then 2 >= [stop_at]. *)
Definition one_shot_clock : list Qc := [0; 0; 0; 0; 0; Qc_of_Z 2].

(** Clock readings of a one-second run at 10 images/s whose second
    iteration starts late, at 0.5 s. *)
Definition lagging_clock : list Qc :=
  [0; 0; 0; 0; 0; Q2Qc (1 # 2); Q2Qc (1 # 2); Q2Qc (1 # 2); Qc_of_Z 2].

(** Clock readings of a one-second run at 10 images/s whose iterations all
    start at 0: the second and third submissions sleep. *)
Definition burst_clock : list Qc := [0; 0; 0; 0; 0; 0; 0; 0; 0; 0; 0; Qc_of_Z 2].

(** 130 storage contexts (CT Image Storage), more than fit. *)
Definition many_storage_contexts : list PresentationContext :=
  repeat (mkPresentationContext "1.2.840.10008.5.1.4.1.1.2" DEFAULT_TRANSFER_SYNTAXES) 130.

(** An [associate]/[send_c_store] run whose [ae.shutdown()] raises. *)
Definition shutdown_fails_transport : Transport :=
  mkTransport None 0 1 (AssocReturns true) (StoreReturns (StDataset (Some 0%Z) 1))
              None (Some (ValueError "shutdown failed")).

(** The value of a decimal digit character. *)
Definition dval (c : ascii) : Z := match digit_val c with Some d => d | None => 0%Z end.
(** A character that [int()] reads as a digit. *)
Definition is_digit (c : ascii) : Prop := is_Some (digit_val c) /\ is_py_space c = false.

(* ================================================================== *)
(** * Properties *)

Example scenarioB_total : Stats.total scenarioB = 10%nat.
Proof. reflexivity. Qed.
Example scenarioB_rate : Stats.error_rate scenarioB = Qc_of_Z 2 / Qc_of_Z 10.
Proof. vm_compute. apply Qc_is_canon. reflexivity. Qed.
Example scenarioB_min : Stats.min_latency_ms scenarioB = Some (Qc_of_Z 10).
Proof. vm_compute. f_equal. apply Qc_is_canon. reflexivity. Qed.
Example scenarioB_avg : Stats.avg_latency_ms scenarioB = Some (Qc_of_Z 45).
Proof. vm_compute. f_equal. apply Qc_is_canon. reflexivity. Qed.

(* ------------------------------------------------------------------ *)
(** ** Metrics statistics *)

Section StatsProofs.

Lemma latencies_filter (samples : list Sample) :
  Stats._latencies samples =
  Stats._latencies (filter (fun s => truthy (success s) = true) samples).
Proof. unfold Stats._latencies. by rewrite list_filter_filter_l. Qed.

Lemma py_min_le (x : Qc) (xs : list Qc) :
  Stats.py_min x xs ∈ x :: xs /\ Forall (fun y => Stats.py_min x xs <= y) (x :: xs).
Proof.
  unfold Stats.py_min. revert x. induction xs as [|y xs IH]; intros x; simpl.
  - split; [left|constructor; [apply Qcle_refl|constructor]].
  - destruct (decide (y < x)) as [Hlt|Hge].
    + destruct (IH y) as [Hin Hall]. inversion Hall as [|? ? Hy Hrest]; subst.
      split.
      * apply elem_of_cons in Hin as [->|Hin]; [right; left|right; right; exact Hin].
      * constructor; [|constructor; [exact Hy|exact Hrest]].
        apply Qcle_trans with y; [exact Hy|apply Qclt_le_weak; exact Hlt].
    + destruct (IH x) as [Hin Hall]. inversion Hall as [|? ? Hx Hrest]; subst.
      split.
      * apply elem_of_cons in Hin as [->|Hin]; [left|right; right; exact Hin].
      * constructor; [exact Hx|constructor; [|exact Hrest]].
        apply Qcle_trans with x; [exact Hx|apply Qcnot_lt_le; exact Hge].
Qed.

End StatsProofs.

(** C7: for every collector state, [error_rate] is [failures / total] when
    [total > 0], and exactly [0.0] when [total == 0]. *)
Theorem error_rate_zero_or_ratio (samples : list Sample) :
  (Stats.total samples = 0%nat /\ Stats.error_rate samples = 0) \/
  ((0 < Stats.total samples)%nat /\
   Stats.error_rate samples =
     Qc_of_nat (Stats.failures samples) / Qc_of_nat (Stats.total samples)).
Proof.
  unfold Stats.error_rate. destruct (Stats.total samples) as [|n] eqn:E.
  - left. split; reflexivity.
  - right. split; [lia|reflexivity].
Qed.

(** C8: [min_latency_ms] and [avg_latency_ms] range over the latencies of
    the successful samples only (minimum and arithmetic mean), are both
    [None] when there is no successful sample whatever the number of failed
    ones, and do not change when failed samples are dropped. *)
Theorem min_avg_over_successes (samples : list Sample) :
  let lat := map latency_ms (filter (fun s => truthy (success s) = true) samples) in
  Stats.min_latency_ms samples =
    Stats.min_latency_ms (filter (fun s => truthy (success s) = true) samples) /\
  Stats.avg_latency_ms samples =
    Stats.avg_latency_ms (filter (fun s => truthy (success s) = true) samples) /\
  ((lat = [] /\ Stats.min_latency_ms samples = None /\ Stats.avg_latency_ms samples = None) \/
   (exists m, Stats.min_latency_ms samples = Some m /\ m ∈ lat /\
      Forall (fun y => m <= y) lat /\
      Stats.avg_latency_ms samples = Some (Stats.sum_Qc lat / Qc_of_nat (length lat)))).
Proof.
  intros lat.
  split; [unfold Stats.min_latency_ms; by rewrite <- latencies_filter|].
  split; [unfold Stats.avg_latency_ms; by rewrite <- latencies_filter|].
  unfold Stats.min_latency_ms, Stats.avg_latency_ms.
  change (Stats._latencies samples) with lat.
  destruct lat as [|x xs] eqn:E.
  - left. auto.
  - right. exists (Stats.py_min x xs).
    destruct (py_min_le x xs) as [Hin Hall]. auto.
Qed.

Lemma nth_error_list_lookup {A} (l : list A) (i : nat) : nth_error l i = l !! i.
Proof. revert i. induction l as [|x l IH]; intros [|i]; simpl; auto. Qed.

Lemma p95_sorted_unique (lat sorted : list Qc) :
  Sorted Qcle sorted -> sorted ≡ₚ lat -> merge_sort Qcle lat = sorted.
Proof.
  intros Hs Hp. apply (Sorted_unique Qcle).
  - apply (Sorted_merge_sort Qcle).
  - exact Hs.
  - rewrite (merge_sort_Permutation Qcle lat). symmetry. exact Hp.
Qed.

(** C2: [p95_latency_ms] is nearest-rank: it is [None] when there is no
    successful sample; otherwise, for the ascending sort of the successful
    latencies (any sorted permutation: they all coincide), it is the element
    at index [clamp(floor(0.95 n) - 1, 0, n - 1)], with no interpolation.
    For scenario B (latencies 10..80 ms and two failures) this is index 6,
    i.e. 70 ms. *)
Theorem p95_nearest_rank :
  (forall (samples : list Sample),
     let lat := Stats._latencies samples in
     (lat = [] /\ Stats.p95_latency_ms samples = None) \/
     (lat <> [] /\
      forall sorted : list Qc, Sorted Qcle sorted -> sorted ≡ₚ lat ->
        let n := Z.of_nat (length lat) in
        let k := Z.max 0 (Z.min (n * 95 / 100 - 1) (n - 1)) in
        (0 <= k < n)%Z /\
        Stats.p95_latency_ms samples = sorted !! Z.to_nat k /\
        is_Some (sorted !! Z.to_nat k))) /\
  (Z.max 0 (Z.min (8 * 95 / 100 - 1) (8 - 1)) = 6)%Z /\
  Stats.p95_latency_ms scenarioB = Some (Qc_of_Z 70).
Proof.
  split; [|split; [reflexivity|]].
  - intros samples lat.
    destruct (decide (lat = [])) as [E|E].
    + left. split; [exact E|].
      unfold Stats.p95_latency_ms. fold lat.
      rewrite E. reflexivity.
    + right. split; [exact E|].
      intros sorted Hs Hp n k.
      assert (Hlen : length sorted = length lat) by (apply Permutation_length; exact Hp).
      assert (Hpos : (0 < length lat)%nat).
      { destruct lat; [congruence|simpl; lia]. }
      assert (Hk : (0 <= k < n)%Z) by (unfold k, n; lia).
      split; [exact Hk|].
      assert (Hlk : (Z.to_nat k < length sorted)%nat).
      { rewrite Hlen. unfold n in Hk. lia. }
      split.
      * unfold Stats.p95_latency_ms. fold lat.
        rewrite (p95_sorted_unique lat sorted Hs Hp).
        destruct sorted as [|y ys]; [simpl in Hlk; lia|].
        rewrite nth_error_list_lookup. unfold Stats.p95_index, k, n.
        rewrite Hlen. reflexivity.
      * apply lookup_lt_is_Some_2. exact Hlk.
  - vm_compute. f_equal. apply Qc_is_canon. reflexivity.
Qed.

(* ------------------------------------------------------------------ *)
(** ** The heap model of PerfMetrics *)

Section HeapProofs.

Variable pm : PerfMetrics.

Lemma read_samples_mono (h h' : heap) (its : list loc) (xs : list Sample) :
  h ⊆ h' -> read_samples h its = Some xs -> read_samples h' its = Some xs.
Proof.
  intros Hsub. revert xs. induction its as [|i its IH]; intros xs; simpl; [auto|].
  destruct (h !! i) as [[|s]|] eqn:Hi; try discriminate.
  rewrite (lookup_weaken h h' i (OSample s) Hi Hsub).
  destruct (read_samples h its) as [ys|]; [|discriminate].
  intros Heq. by rewrite (IH ys eq_refl).
Qed.

Lemma list_contents_mono (h h' : heap) (l : loc) (xs : list Sample) :
  h ⊆ h' -> list_contents h l = Some xs -> list_contents h' l = Some xs.
Proof.
  intros Hsub. unfold list_contents.
  destruct (h !! l) as [[its|]|] eqn:Hl; try discriminate.
  rewrite (lookup_weaken h h' l (OList its) Hl Hsub).
  apply read_samples_mono. exact Hsub.
Qed.

(** Overwriting a list object does not disturb the Sample objects a list
    refers to. *)
Lemma read_samples_insert_list (h : heap) (l : loc) (its its' : list loc) (o : Obj)
    (xs : list Sample) :
  h !! l = Some (OList its') -> read_samples h its = Some xs ->
  read_samples (<[l := o]> h) its = Some xs.
Proof.
  intros Hl. revert xs. induction its as [|i its IH]; intros xs; simpl; [auto|].
  destruct (h !! i) as [[|s]|] eqn:Hi; try discriminate.
  assert (Hne : l <> i) by (intros ->; congruence).
  rewrite (lookup_insert_ne h l i o Hne), Hi.
  destruct (read_samples h its) as [ys|]; [|discriminate].
  intros Heq. by rewrite (IH ys eq_refl).
Qed.

Lemma read_samples_app (h : heap) (its1 its2 : list loc) (xs1 xs2 : list Sample) :
  read_samples h its1 = Some xs1 -> read_samples h its2 = Some xs2 ->
  read_samples h (its1 ++ its2) = Some (xs1 ++ xs2).
Proof.
  revert xs1. induction its1 as [|i its1 IH]; intros xs1; simpl.
  - intros [= <-] H2. exact H2.
  - destruct (h !! i) as [[|s]|]; try discriminate.
    destruct (read_samples h its1) as [ys|]; [|discriminate].
    intros [= <-] H2. by rewrite (IH ys eq_refl H2).
Qed.

Lemma alloc_fresh (o : Obj) (h : heap) :
  exists l, alloc o h = Some (l, <[l := o]> h) /\ h !! l = None /\ h ⊆ <[l := o]> h.
Proof.
  exists (fresh (dom h)). split; [reflexivity|].
  assert (Hn : h !! fresh (dom h) = None) by (apply not_elem_of_dom, is_fresh).
  split; [exact Hn|]. apply insert_subseteq. exact Hn.
Qed.

(** [c] reads the collector and returns [f] of its sample values, only
    allocating. *)
Definition Reads {A} (c : M A) (f : list Sample -> A) : Prop :=
  forall h xs, list_contents h (_samples pm) = Some xs ->
    exists h', c h = Some (f xs, h') /\ h ⊆ h'.

Lemma Reads_ret {A} (a : A) : Reads (retM a) (fun _ => a).
Proof. intros h xs _. exists h. split; reflexivity. Qed.

Lemma Reads_bind {A B} (c : M A) (f : list Sample -> A) (k : A -> M B)
    (g : A -> list Sample -> B) :
  Reads c f -> (forall a, Reads (k a) (g a)) ->
  Reads (bindM c k) (fun xs => g (f xs) xs).
Proof.
  intros Hc Hk h xs Hxs. destruct (Hc h xs Hxs) as (h1 & E1 & S1).
  destruct (Hk (f xs) h1 xs (list_contents_mono h h1 _ xs S1 Hxs)) as (h2 & E2 & S2).
  exists h2. unfold bindM. rewrite E1. split; [exact E2|]. by transitivity h1.
Qed.

Lemma Reads_ext {A} (c : M A) (f g : list Sample -> A) :
  (forall xs, f xs = g xs) -> Reads c f -> Reads c g.
Proof.
  intros Hfg Hc h xs Hxs. destruct (Hc h xs Hxs) as (h' & E & S).
  exists h'. rewrite <- Hfg. auto.
Qed.

Lemma samples_fresh (h : heap) (its : list loc) :
  h !! _samples pm = Some (OList its) ->
  exists l, PM.samples pm h = Some (l, <[l := OList its]> h) /\ h !! l = None /\
            h ⊆ <[l := OList its]> h.
Proof.
  intros Hi. unfold PM.samples. rewrite Hi. apply alloc_fresh.
Qed.

Lemma Reads_over_samples {A} (f : list Sample -> A) : Reads (PM.over_samples pm f) f.
Proof.
  intros h xs Hxs. unfold list_contents in Hxs.
  destruct (h !! _samples pm) as [[its|]|] eqn:Hi; try discriminate.
  destruct (samples_fresh h its Hi) as (l & E & Hn & S).
  exists (<[l := OList its]> h). unfold PM.over_samples, bindM. rewrite E.
  unfold read_list, list_contents. rewrite lookup_insert_eq.
  rewrite (read_samples_mono h _ its xs S Hxs). split; [reflexivity|exact S].
Qed.

Lemma bindM_Some {A B} (c : M A) (k : A -> M B) (h h' : heap) (a : A) :
  c h = Some (a, h') -> bindM c k h = k a h'.
Proof. intros E. unfold bindM. rewrite E. reflexivity. Qed.

(** Run the reads of a method body one [let!] at a time. *)
Ltac run_reads :=
  repeat match goal with
  | Hx : list_contents ?h (_samples _) = Some ?xs
    |- context [bindM (PM.over_samples ?pm ?f) ?k ?h] =>
      let c := constr:(PM.over_samples pm f) in
      let h' := fresh "h" in let E := fresh "E" in let S := fresh "S" in
      destruct (Reads_over_samples f h xs Hx) as (h' & E & S);
      rewrite (bindM_Some c k h h' _ E); cbv beta;
      pose proof (list_contents_mono h h' _ xs S Hx)
  end.

Ltac close_reads :=
  eexists; split; [reflexivity|];
  repeat (etransitivity; [eassumption|]); reflexivity.

Lemma Reads_error_rate : Reads (PM.error_rate pm) Stats.error_rate.
Proof.
  intros h xs Hxs. unfold PM.error_rate, PM.total, PM.failures.
  run_reads.
  unfold Stats.error_rate.
  destruct (Nat.eqb (Stats.total xs) 0); [close_reads|].
  run_reads. close_reads.
Qed.

(** The dict [snapshot] returns for sample values [xs] at time [now]. *)
Definition snapshot_dict (xs : list Sample) (now : Qc) : list (string * PM.SnapVal) :=
  [("total", PM.VInt (Stats.total xs)); ("successes", PM.VInt (Stats.successes xs));
   ("failures", PM.VInt (Stats.failures xs)); ("error_rate", PM.VFloat (Stats.error_rate xs));
   ("min_latency_ms", PM.VOptFloat (Stats.min_latency_ms xs));
   ("avg_latency_ms", PM.VOptFloat (Stats.avg_latency_ms xs));
   ("p95_latency_ms", PM.VOptFloat (Stats.p95_latency_ms xs));
   ("throughput_per_second", PM.VFloat (Stats.throughput_per_second xs None));
   ("timestamp", PM.VFloat now)].

Lemma Reads_snapshot (now : Qc) : Reads (PM.snapshot pm now) (fun xs => snapshot_dict xs now).
Proof.
  intros h xs Hxs. unfold PM.snapshot.
  unfold PM.total at 1. run_reads.
  unfold PM.successes. run_reads.
  unfold PM.failures. run_reads.
  match goal with
  | Hx : list_contents ?h (_samples _) = Some xs |- context [bindM (PM.error_rate pm) ?k ?h] =>
      destruct (Reads_error_rate h xs Hx) as (h_er & E_er & S_er);
      rewrite (bindM_Some _ k h h_er _ E_er); cbv beta;
      pose proof (list_contents_mono h h_er _ xs S_er Hx)
  end.
  unfold PM.min_latency_ms, PM.avg_latency_ms, PM.p95_latency_ms, PM.throughput_per_second.
  run_reads.
  close_reads.
Qed.

Lemma Reads_drop {A} (c : M A) (f : list Sample -> A) :
  Reads c f -> Reads (bindM c (fun _ => retM (@None loc))) (fun _ => None).
Proof.
  intros Hc. apply (Reads_ext _ (fun xs => (fun _ _ => None) (f xs) xs)); [reflexivity|].
  apply (Reads_bind c f (fun _ => retM None) (fun _ _ => None) Hc).
  intros _. apply Reads_ret.
Qed.

Lemma Reads_call_other (m : Method) :
  (forall s, m <> MRecord s) -> m <> MSamples -> Reads (call pm m) (fun _ => None).
Proof.
  intros Hr Hs. destruct m; cbn [call];
    try (exfalso; eapply Hr; reflexivity); try (exfalso; apply Hs; reflexivity);
    eapply Reads_drop;
    first [ apply Reads_over_samples | apply Reads_error_rate | apply Reads_snapshot ].
Qed.

(** The collector's state along a client trace: its list object holds
    [its], whose Sample objects are [xs]; no list handed to the client is
    the collector's own. *)
Definition Inv (h : heap) (rets : list loc) (its : list loc) (xs : list Sample) : Prop :=
  h !! _samples pm = Some (OList its) /\ read_samples h its = Some xs /\
  Forall (fun l => l <> _samples pm) rets.

Lemma Inv_weaken (h h' : heap) (rets : list loc) (its : list loc) (xs : list Sample) :
  h ⊆ h' -> Inv h rets its xs -> Inv h' rets its xs.
Proof.
  intros S (Hi & Hr & Hf). split; [|split; [|exact Hf]].
  - exact (lookup_weaken h h' _ _ Hi S).
  - exact (read_samples_mono h h' its xs S Hr).
Qed.

Lemma step_call_other (h : heap) (rets : list loc) (its : list loc) (xs : list Sample)
    (m : Method) :
  Inv h rets its xs -> (forall s, m <> MRecord s) -> m <> MSamples ->
  Inv (step pm (h, rets) (ACall m)).1 (step pm (h, rets) (ACall m)).2 its xs.
Proof.
  intros HI Hr Hs. pose proof HI as (Hi & Hrd & _).
  assert (Hxs : list_contents h (_samples pm) = Some xs)
    by (unfold list_contents; rewrite Hi; exact Hrd).
  destruct (Reads_call_other m Hr Hs h xs Hxs) as (h' & Ec & S).
  cbn [step]. rewrite Ec. exact (Inv_weaken h h' rets its xs S HI).
Qed.

Lemma step_Inv (h : heap) (rets : list loc) (its : list loc) (xs : list Sample) (a : Action) :
  Inv h rets its xs ->
  exists its', Inv (step pm (h, rets) a).1 (step pm (h, rets) a).2 (its ++ its') (xs ++ recorded [a]) /\
               length its' = length (recorded [a]).
Proof.
  intros HI. pose proof HI as (Hi & Hr & Hf).
  assert (Hxs : list_contents h (_samples pm) = Some xs) by (unfold list_contents; rewrite Hi; exact Hr).
  destruct a as [m|j op].
  - destruct m as [s| | | | | | | | |w|now];
      [| |exists []; rewrite !app_nil_r; split; [|reflexivity];
          apply step_call_other; [exact HI|intros ?; discriminate|discriminate] ..].
    + (* record *)
      destruct (alloc_fresh (OSample s) h) as (sl & Ea & Hn & S).
      assert (Hne : sl <> _samples pm) by (intros ->; congruence).
      exists [sl]. split; [|reflexivity].
      assert (Ec : call pm (MRecord s) h =
                   Some (None, <[_samples pm := OList (its ++ [sl])]> (<[sl := OSample s]> h))).
      { unfold call; cbv beta zeta iota. unfold PM.record, bindM. rewrite Ea. cbv beta.
        rewrite (lookup_insert_ne h sl (_samples pm) _ Hne), Hi. reflexivity. }
      cbn [step]. rewrite Ec. cbn [fst snd].
      split; [|split; [|exact Hf]].
      * apply lookup_insert_eq.
      * apply read_samples_app.
        -- apply (read_samples_insert_list _ _ _ its); [|exact (read_samples_mono h _ its xs S Hr)].
           rewrite (lookup_insert_ne h sl (_samples pm) _ Hne). exact Hi.
        -- cbn. rewrite (lookup_insert_ne _ (_samples pm) sl _ (not_eq_sym Hne)), lookup_insert_eq.
           reflexivity.
    + (* samples *)
      destruct (samples_fresh h its Hi) as (l & Es & Hn & S).
      assert (Hne : l <> _samples pm) by (intros ->; congruence).
      exists []. rewrite !app_nil_r. split; [|reflexivity].
      assert (Ec : call pm MSamples h = Some (Some l, <[l := OList its]> h)).
      { unfold call; cbv beta zeta iota. unfold bindM. rewrite Es. reflexivity. }
      cbn [step]. rewrite Ec. cbn [fst snd].
      destruct (Inv_weaken h _ rets its xs S HI) as (Hi' & Hr' & _).
      split; [exact Hi'|split; [exact Hr'|]].
      apply Forall_app. split; [exact Hf|constructor; [exact Hne|constructor]].
  - exists []. rewrite !app_nil_r. split; [|reflexivity].
    cbn [step]. destruct (rets !! j) as [l|] eqn:Ej; [|exact HI].
    assert (Hne : l <> _samples pm).
    { apply list_elem_of_lookup_2 in Ej. rewrite Forall_forall in Hf. exact (Hf l Ej). }
    unfold mutate_list. destruct (h !! l) as [[items|]|] eqn:El; try exact HI.
    destruct (list_op op items) as [items'|]; [|exact HI]. cbn.
    split; [|split; [|exact Hf]].
    + rewrite (lookup_insert_ne h l (_samples pm) _ Hne). exact Hi.
    + exact (read_samples_insert_list h l its items _ xs El Hr).
Qed.

Lemma run_client_Inv (tr : list Action) (h : heap) (rets : list loc) (its : list loc)
    (xs : list Sample) :
  Inv h rets its xs ->
  exists its', Inv (run_client pm tr (h, rets)).1 (run_client pm tr (h, rets)).2
                   (its ++ its') (xs ++ recorded tr) /\ length its' = length (recorded tr).
Proof.
  revert h rets its xs. induction tr as [|a tr IH]; intros h rets its xs HI.
  - exists []. rewrite !app_nil_r. split; [exact HI|reflexivity].
  - destruct (step_Inv h rets its xs a HI) as (its1 & HI1 & L1).
    unfold run_client. cbn [fold_left].
    destruct (step pm (h, rets) a) as [h1 rets1] eqn:Est. cbn in HI1.
    destruct (IH h1 rets1 _ _ HI1) as (its2 & HI2 & L2).
    exists (its1 ++ its2). unfold run_client in HI2.
    rewrite !app_assoc. replace (recorded (a :: tr)) with (recorded [a] ++ recorded tr)
      by (destruct a as [[]|]; reflexivity).
    rewrite !app_assoc. split; [exact HI2|].
    rewrite !length_app, L1, L2. reflexivity.
Qed.

End HeapProofs.

(** C9: [samples] returns a fresh list object (not the collector's own,
    holding the same references, so the same sample values); and along any
    client trace that calls the collector's methods and mutates the lists
    [samples] returned (append, item assignment, deletion, pop, clear,
    reverse), the collector's list only changes by [record]: it ends as its
    initial references followed by one new reference per [record] call, and
    its sample values are the initial ones followed by the recorded samples.
    (The copy is shallow: the Sample objects themselves are shared.) *)
Theorem samples_copy_append_only (pm : PerfMetrics) (h : heap) (its : list loc)
    (xs : list Sample) (tr : list Action) :
  h !! _samples pm = Some (OList its) -> read_samples h its = Some xs ->
  (exists l h', PM.samples pm h = Some (l, h') /\ l <> _samples pm /\ h !! l = None /\
     h' !! l = Some (OList its) /\ h' !! _samples pm = Some (OList its) /\
     list_contents h' l = Some xs) /\
  (exists its', (run_client pm tr (h, [])).1 !! _samples pm = Some (OList (its ++ its')) /\
     length its' = length (recorded tr) /\
     list_contents (run_client pm tr (h, [])).1 (_samples pm) = Some (xs ++ recorded tr)).
Proof.
  intros Hi Hr. split.
  - destruct (samples_fresh pm h its Hi) as (l & Es & Hn & S).
    assert (Hne : l <> _samples pm) by (intros ->; congruence).
    exists l, (<[l := OList its]> h).
    split; [exact Es|split; [exact Hne|split; [exact Hn|]]].
    split; [apply lookup_insert_eq|].
    split; [rewrite (lookup_insert_ne h l (_samples pm) _ Hne); exact Hi|].
    unfold list_contents. rewrite lookup_insert_eq.
    exact (read_samples_mono h _ its xs S Hr).
  - assert (HI : Inv pm h [] its xs) by (split; [exact Hi|split; [exact Hr|constructor]]).
    destruct (run_client_Inv pm tr h [] its xs HI) as (its' & (Hi' & Hr' & _) & L).
    exists its'. split; [exact Hi'|split; [exact L|]].
    unfold list_contents. rewrite Hi'. exact Hr'.
Qed.

Lemma samples_copy_append_only_witness :
  (demo_heap !! _samples demo_pm = Some (OList []) /\ read_samples demo_heap [] = Some []) /\
  ((exists l h', PM.samples demo_pm demo_heap = Some (l, h') /\ l <> _samples demo_pm /\
      demo_heap !! l = None /\ h' !! l = Some (OList []) /\
      h' !! _samples demo_pm = Some (OList []) /\ list_contents h' l = Some []) /\
   (exists its', (run_client demo_pm demo_trace (demo_heap, [])).1 !! _samples demo_pm =
        Some (OList ([] ++ its')) /\ length its' = length (recorded demo_trace) /\
      list_contents (run_client demo_pm demo_trace (demo_heap, [])).1 (_samples demo_pm) =
        Some ([] ++ recorded demo_trace))).
Proof.
  split; [split; reflexivity|].
  apply (samples_copy_append_only demo_pm demo_heap [] [] demo_trace); reflexivity.
Defined.

Lemma recorded_nil (tr : list Action) :
  Forall (fun a => forall s, a <> ACall (MRecord s)) tr -> recorded tr = [].
Proof.
  induction 1 as [|a tr Ha _ IH]; [reflexivity|].
  destruct a as [[s| | | | | | | | |w|now]|j op]; cbn; try exact IH.
  exfalso. exact (Ha s eq_refl).
Qed.

(** C5 (as the code has it): two [snapshot] calls with no [record] in
    between (any other client activity may come between them: method
    calls, [samples] copies and their mutation) return dicts that agree on
    every key except "timestamp", which holds the [time.time()] reading of
    each call.  [rets] are the lists the client already holds, none of them
    the collector's own (as C9 shows of every list [samples] returns). *)
Theorem snapshot_twice_same_but_timestamp (pm : PerfMetrics) (h : heap) (rets : list loc)
    (its : list loc) (xs : list Sample) (tr : list Action) (t1 t2 : Qc) :
  h !! _samples pm = Some (OList its) -> read_samples h its = Some xs ->
  Forall (fun l => l <> _samples pm) rets ->
  Forall (fun a => forall s, a <> ACall (MRecord s)) tr ->
  exists d1 h1 d2 h2,
    PM.snapshot pm t1 h = Some (d1, h1) /\
    PM.snapshot pm t2 (run_client pm tr (h1, rets)).1 = Some (d2, h2) /\
    (forall key, key <> "timestamp"%string -> dict_get key d1 = dict_get key d2) /\
    dict_get "timestamp" d1 = Some (PM.VFloat t1) /\
    dict_get "timestamp" d2 = Some (PM.VFloat t2).
Proof.
  intros Hi Hr Hf Hnr.
  assert (Hxs : list_contents h (_samples pm) = Some xs)
    by (unfold list_contents; rewrite Hi; exact Hr).
  destruct (Reads_snapshot pm t1 h xs Hxs) as (h1 & E1 & S1).
  assert (HI1 : Inv pm h1 rets its xs).
  { apply (Inv_weaken pm h h1 rets its xs S1). split; [exact Hi|split; [exact Hr|exact Hf]]. }
  destruct (run_client_Inv pm tr h1 rets its xs HI1) as (its' & (Hi' & Hr' & _) & _).
  rewrite (recorded_nil tr Hnr), app_nil_r in Hr'.
  assert (Hxs2 : list_contents (run_client pm tr (h1, rets)).1 (_samples pm) = Some xs)
    by (unfold list_contents; rewrite Hi'; exact Hr').
  destruct (Reads_snapshot pm t2 _ xs Hxs2) as (h2 & E2 & _).
  exists (snapshot_dict xs t1), h1, (snapshot_dict xs t2), h2.
  split; [exact E1|split; [exact E2|]].
  split; [|split; reflexivity].
  intros key Hkey. unfold snapshot_dict. cbn [dict_get].
  repeat (destruct (String.eqb _ key) eqn:?; [reflexivity|]).
  destruct (String.eqb "timestamp" key) eqn:Ek; [|reflexivity].
  apply String.eqb_eq in Ek. congruence.
Qed.

Lemma snapshot_twice_same_but_timestamp_witness :
  scenarioB_heap !! _samples demo_pm =
    Some (OList [2%positive; 3%positive; 4%positive; 5%positive; 6%positive;
                 7%positive; 8%positive; 9%positive; 10%positive; 11%positive]) /\
  read_samples scenarioB_heap
    [2%positive; 3%positive; 4%positive; 5%positive; 6%positive;
     7%positive; 8%positive; 9%positive; 10%positive; 11%positive] = Some scenarioB /\
  Forall (fun a => forall s, a <> ACall (MRecord s)) no_record_trace /\
  exists d1 h1 d2 h2,
    PM.snapshot demo_pm 0 scenarioB_heap = Some (d1, h1) /\
    PM.snapshot demo_pm 1 (run_client demo_pm no_record_trace (h1, [])).1 = Some (d2, h2) /\
    (forall key, key <> "timestamp"%string -> dict_get key d1 = dict_get key d2) /\
    dict_get "timestamp" d1 = Some (PM.VFloat 0) /\ dict_get "timestamp" d2 = Some (PM.VFloat 1).
Proof.
  assert (Hi : scenarioB_heap !! _samples demo_pm =
    Some (OList [2%positive; 3%positive; 4%positive; 5%positive; 6%positive;
                 7%positive; 8%positive; 9%positive; 10%positive; 11%positive]))
    by (vm_compute; reflexivity).
  assert (Hr : read_samples scenarioB_heap
    [2%positive; 3%positive; 4%positive; 5%positive; 6%positive;
     7%positive; 8%positive; 9%positive; 10%positive; 11%positive] = Some scenarioB)
    by (vm_compute; reflexivity).
  assert (Hn : Forall (fun a => forall s, a <> ACall (MRecord s)) no_record_trace)
    by (repeat constructor; intros s Hs; discriminate Hs).
  split; [exact Hi|split; [exact Hr|split; [exact Hn|]]].
  exact (snapshot_twice_same_but_timestamp demo_pm scenarioB_heap [] _ scenarioB
           no_record_trace 0 1 Hi Hr (Forall_nil_2 _) Hn).
Defined.

(** C5 as stated fails: a second [snapshot] right after the first, at a
    later [time.time()] reading, differs from it. *)
Lemma snapshot_twice_counterexample :
  exists d1 h1 d2 h2,
    PM.snapshot demo_pm 0 demo_heap = Some (d1, h1) /\
    PM.snapshot demo_pm 1 h1 = Some (d2, h2) /\ d1 <> d2.
Proof.
  do 4 eexists. split; [reflexivity|split; [reflexivity|]].
  vm_compute. intros H. inversion H.
Qed.

(* ------------------------------------------------------------------ *)
(** ** DicomSender and load_test_for_duration *)

Section SenderProofs.

Variable storage : list PresentationContext.

Lemma build_ae_ok (title : list ascii) :
  _build_ae storage title None =
  Ok (mkAE title (take 127 storage ++ [mkPresentationContext Verification DEFAULT_TRANSFER_SYNTAXES])).
Proof.
  unfold _build_ae, add_requested_context. cbn [requested_contexts ae_title app].
  assert (Hl : (length (take 127 storage) <= 127)%nat) by (rewrite length_take; lia).
  destruct (128 <=? length (take 127 storage))%nat eqn:E.
  - apply Nat.leb_le in E. lia.
  - reflexivity.
Qed.

Lemma send_ok_records_one (self : DicomSender) (t : Transport) (m : list Sample) :
  (_send_single_dataset storage self t m).2 = Ok tt ->
  exists s, (_send_single_dataset storage self t m).1 = m ++ [s].
Proof.
  unfold _send_single_dataset.
  destruct (_build_ae _ _ _) as [ae|e]; [|discriminate].
  destruct (t_shutdown t); [discriminate|].
  destruct (t_assoc t) as [e|[|]]; cbn.
  - destruct (exc_is_Exception e); [eauto|discriminate].
  - destruct (t_store t) as [e|st]; cbn.
    + destruct (exc_is_Exception e); [eauto|discriminate].
    + destruct (t_release t) as [e|]; cbn.
      * destruct (exc_is_Exception e); [eauto|discriminate].
      * destruct (success_value st) as [sv|e]; cbn; [eauto|].
        destruct (exc_is_Exception e); [eauto|discriminate].
  - eauto.
Qed.

Lemma send_caught_records_one (self : DicomSender) (t : Transport) (m : list Sample) :
  t_ctor t = None -> body_caught t = true ->
  exists s, (_send_single_dataset storage self t m).1 = m ++ [s].
Proof.
  intros Hc Hb. unfold _send_single_dataset. rewrite Hc, build_ae_ok. cbv iota beta zeta.
  unfold body_caught in Hb.
  destruct (t_assoc t) as [e|[|]]; cbn.
  - rewrite Hb. destruct (t_shutdown t); cbn; eauto.
  - destruct (t_store t) as [e|st]; cbn.
    + rewrite Hb. destruct (t_shutdown t); cbn; eauto.
    + destruct (t_release t) as [e|]; cbn.
      * rewrite Hb. destruct (t_shutdown t); cbn; eauto.
      * destruct (success_value st) as [sv|e] eqn:Es; cbn.
        -- destruct (t_shutdown t); cbn; eauto.
        -- assert (He : exc_is_Exception e = true).
           { unfold success_value in Es.
             destruct (status_truthy st); [|discriminate].
             destruct st as [|[c|] o]; try discriminate; injection Es as <-; reflexivity. }
           rewrite He. destruct (t_shutdown t); cbn; eauto.
  - destruct (t_shutdown t); cbn; eauto.
Qed.

Lemma first_raise_app (rs1 rs2 : list (Result unit)) :
  first_raise (rs1 ++ rs2) =
  match first_raise rs1 with Some e => Some e | None => first_raise rs2 end.
Proof.
  induction rs1 as [|[u|e] rs1 IH]; cbn; [reflexivity| |reflexivity]. exact IH.
Qed.

Lemma run_tasks_all_ok (self : DicomSender) (workers : nat -> Transport)
    (completion : list nat) (m : list Sample) (rs : list (Result unit)) :
  let r := fold_left (fun '(m, rs) j =>
               let '(m', r) := _send_single_dataset storage self (workers j) m in
               (m', rs ++ [r])) completion (m, rs) in
  first_raise r.2 = None ->
  first_raise rs = None /\ length r.1 = (length m + length completion)%nat.
Proof.
  revert m rs. induction completion as [|j comp IH]; intros m rs r Hr.
  - split; [exact Hr|cbn; lia].
  - subst r. cbn [fold_left] in Hr |- *.
    destruct (_send_single_dataset storage self (workers j) m) as [m' res] eqn:Es.
    destruct (IH m' (rs ++ [res]) Hr) as [H1 H2].
    rewrite first_raise_app in H1.
    destruct (first_raise rs) eqn:Ers; [discriminate|].
    split; [reflexivity|].
    destruct res as [[]|e]; [|discriminate].
    destruct (send_ok_records_one self (workers j) m) as [s Hs].
    { rewrite Es. reflexivity. }
    rewrite Es in Hs. cbn in Hs. rewrite H2, Hs, length_app. cbn. lia.
Qed.

End SenderProofs.

(** C1 (as the code has it): a call of [_send_single_dataset] whose
    [AE(...)] builds and whose [try] block meets only [Exception]s records
    exactly one Sample, on every path; and a run of
    [load_test_for_duration] that returns [total_submitted] (its tasks
    completing in any order) leaves the collector with its initial total
    plus [total_submitted] samples, one per submission. *)
Theorem send_records_one_sample_run_total :
  (forall (storage : list PresentationContext) (self : DicomSender) (t : Transport)
          (m : list Sample),
     t_ctor t = None -> body_caught t = true ->
     exists s, (_send_single_dataset storage self t m).1 = m ++ [s]) /\
  (forall (storage : list PresentationContext) (D : Type) (self : DicomSender) (datasets : list D)
          (m : list Sample) (duration_seconds : Z) (conc : option Z) (rate : option PyFloat)
          (clock : list Qc) (workers : nat -> Transport) (completion : list nat)
          (rt : RunTrace D) (total_submitted : nat),
     load_test_for_duration storage self datasets m duration_seconds conc rate clock
       workers completion = Some rt ->
     rt_result rt = Ok total_submitted ->
     completion ≡ₚ seq 0 (length (rt_submissions rt)) ->
     total_submitted = length (rt_submissions rt) /\
     Stats.total (rt_metrics rt) = (Stats.total m + total_submitted)%nat).
Proof.
  split.
  - intros storage self t m. apply send_caught_records_one.
  - intros storage D self datasets m dur conc rate clock workers completion rt n Hrun Hres Hperm.
    unfold load_test_for_duration in Hrun.
    destruct clock as [|c0 clock1]; [discriminate|].
    destruct (_ <=? 0)%Z.
    { injection Hrun as <-. discriminate. }
    destruct clock1 as [|c1 clock2]; [discriminate|].
    destruct (submit_loop _ _ _ _ _ _ _) as [[subs exc]|]; [|discriminate].
    unfold run_tasks in Hrun.
    destruct (fold_left _ completion (m, [])) as [m' rs] eqn:Ef.
    injection Hrun as <-. cbn in Hres |- *.
    destruct exc as [e|]; [discriminate|].
    destruct (first_raise rs) eqn:Er; [discriminate|].
    injection Hres as <-.
    pose proof (run_tasks_all_ok storage self workers completion m []) as H.
    rewrite Ef in H. destruct (H Er) as [_ Hl].
    split; [reflexivity|].
    unfold Stats.total. cbn in Hl. rewrite Hl.
    rewrite (Permutation_length Hperm), length_seq. reflexivity.
Qed.

Lemma send_records_one_sample_run_total_witness :
  (exists s, (_send_single_dataset [] demo_sender (ok_transport 0 1) []).1 = [] ++ [s]) /\
  (exists rt,
     load_test_for_duration [] demo_sender [tt] [] 1 None None one_shot_clock
       (fun _ => ok_transport 0 1) [0%nat] = Some rt /\
     rt_result rt = Ok 1%nat /\ [0%nat] ≡ₚ seq 0 (length (rt_submissions rt)) /\
     1%nat = length (rt_submissions rt) /\
     Stats.total (rt_metrics rt) = (Stats.total [] + 1)%nat).
Proof.
  split.
  - apply (proj1 send_records_one_sample_run_total); reflexivity.
  - eexists. split; [reflexivity|].
    split; [reflexivity|]. split; [vm_compute; apply Permutation_refl|].
    apply (proj2 send_records_one_sample_run_total [] unit demo_sender [tt] [] 1%Z None None
             one_shot_clock (fun _ => ok_transport 0 1) [0%nat]);
      [reflexivity|reflexivity|vm_compute; apply Permutation_refl].
Defined.

(** C1 as stated fails: an [AE(...)] that raises in [_build_ae] escapes
    before the [try] and records nothing; and a run on a collector that
    already holds a sample returns 1 while the collector's final total
    is 2. *)
Lemma send_records_one_sample_counterexample :
  _send_single_dataset [] demo_sender ctor_fails_transport [] =
    ([], Raise (ValueError "invalid AE title")) /\
  (exists rt,
     load_test_for_duration [] demo_sender [tt] [failed_sample] 1 None None one_shot_clock
       (fun _ => ok_transport 0 1) [0%nat] = Some rt /\
     rt_result rt = Ok 1%nat /\ Stats.total (rt_metrics rt) = 2%nat).
Proof.
  split; [reflexivity|].
  eexists. split; [reflexivity|]. split; reflexivity.
Qed.

Lemma py_max_zero (x : Qc) : 0 < x -> Stats.py_max x [0] = x.
Proof.
  intros H. unfold Stats.py_max. cbn.
  destruct (decide (x < 0)) as [H'|]; [|reflexivity].
  exfalso. apply (Qclt_not_le _ _ H'). apply Qclt_le_weak. exact H.
Qed.

Lemma submit_loop_paced {D} (datasets : list D) (period stop_at : Qc) (fuel : nat) :
  forall clock next_send_time i subs exc,
  submit_loop datasets period stop_at fuel clock next_send_time i = Some (subs, exc) ->
  paced period next_send_time subs.
Proof.
  induction fuel as [|fuel IH]; intros clock next i subs exc H; [discriminate|].
  cbn in H.
  destruct clock as [|c clock1]; [discriminate|].
  destruct (decide (c < stop_at)); [|injection H as <- _; exact I].
  destruct clock1 as [|now clock2]; [discriminate|].
  destruct clock2 as [|after clock3]; [discriminate|].
  destruct (cycle_next datasets i) as [ds|]; [|injection H as <- _; exact I].
  destruct (submit_loop _ _ _ _ _ _ _) as [[subs' exc']|] eqn:E; [|discriminate].
  injection H as <- _. cbn.
  split; [|split; [reflexivity|eapply IH; exact E]].
  destruct (bool_decide (0 < period)); [|reflexivity].
  destruct (bool_decide (now < next)) eqn:Hlt; [|reflexivity].
  cbn. f_equal. apply py_max_zero. apply bool_decide_eq_true in Hlt.
  apply Qclt_minus_iff in Hlt. exact Hlt.
Qed.

(** C3 (as the code has it): the period is [1.0 / target_rate] when the
    target rate is positive and finite, 0 otherwise (target rate
    defaulting to [peak_images_per_second * load_multiplier]); each
    iteration sleeps [next_send_time - now] exactly when [period > 0] and
    [now < next_send_time], and the next [next_send_time] is the
    [time.perf_counter()] reading taken after that step plus the period,
    starting from the reading taken before the loop. *)
Theorem pacing_from_clock_readings :
  (forall (self : DicomSender) (rate : option PyFloat),
     send_period (target_rate self rate) =
     let target := match rate with
                   | Some r => r
                   | None => int_mul_float (peak_images_per_second (load_profile self))
                                           (load_multiplier (load_profile self))
                   end in
     match target with
     | PFin q => if bool_decide (0 < q) then 1 / q else 0
     | PInf neg => 0
     | PNaN => 0
     end) /\
  (forall (storage : list PresentationContext) (D : Type) (self : DicomSender)
          (datasets : list D) (m : list Sample) (duration_seconds : Z) (conc : option Z)
          (rate : option PyFloat) (clock : list Qc) (workers : nat -> Transport)
          (completion : list nat) (rt : RunTrace D),
     load_test_for_duration storage self datasets m duration_seconds conc rate clock
       workers completion = Some rt ->
     rt_submissions rt = [] \/
     exists c0 c1 clock', clock = c0 :: c1 :: clock' /\
       paced (send_period (target_rate self rate)) c1 (rt_submissions rt)).
Proof.
  split.
  - intros self rate. unfold send_period, float_gt0, float_inv_pos.
    destruct (target_rate self rate) as [q|[]|] eqn:E; cbn; unfold target_rate in E;
      rewrite E; reflexivity.
  - intros storage D self datasets m dur conc rate clock workers completion rt Hrun.
    unfold load_test_for_duration in Hrun.
    destruct clock as [|c0 clock1]; [discriminate|].
    destruct (_ <=? 0)%Z.
    { injection Hrun as <-. left. reflexivity. }
    destruct clock1 as [|c1 clock2]; [discriminate|].
    destruct (submit_loop _ _ _ _ _ _ _) as [[subs exc]|] eqn:E; [|discriminate].
    destruct (run_tasks _ _ _ _ _) as [m' rs].
    injection Hrun as <-. right. exists c0, c1, clock2. split; [reflexivity|].
    cbn. eapply submit_loop_paced. exact E.
Qed.

Lemma pacing_from_clock_readings_witness :
  exists rt,
    load_test_for_duration [] demo_sender [tt] [] 1%Z None (Some (PFin (Qc_of_Z 10)))
      lagging_clock (fun _ => ok_transport 0 1) [0%nat; 1%nat] = Some rt /\
    (rt_submissions rt = [] \/
     exists c0 c1 clock', lagging_clock = c0 :: c1 :: clock' /\
       paced (send_period (target_rate demo_sender (Some (PFin (Qc_of_Z 10))))) c1
             (rt_submissions rt)).
Proof.
  eexists. split; [reflexivity|].
  apply (proj2 pacing_from_clock_readings [] unit demo_sender [tt] [] 1%Z None
           (Some (PFin (Qc_of_Z 10))) lagging_clock (fun _ => ok_transport 0 1) [0%nat; 1%nat]).
  reflexivity.
Defined.

(** C3 as stated fails: at 10 images/s, when the second iteration starts
    late (at 0.5 s, after a first submission scheduled the next one for
    0.1 s), the third submission is scheduled at 0.6 s, not at
    0.1 + 0.1 = 0.2 s. *)
Lemma pacing_counterexample :
  send_period (target_rate demo_sender (Some (PFin (Qc_of_Z 10)))) = Q2Qc (1 # 10) /\
  exists rt,
    load_test_for_duration [] demo_sender [tt] [] 1%Z None (Some (PFin (Qc_of_Z 10)))
      lagging_clock (fun _ => ok_transport 0 1) [0%nat; 1%nat] = Some rt /\
    map (fun s => this (sub_sched s)) (rt_submissions rt) = [1 # 10; 3 # 5]%Q /\
    Q2Qc (3 # 5) <> Q2Qc (1 # 10) + Q2Qc (1 # 10).
Proof.
  split; [apply Qc_is_canon; reflexivity|].
  eexists. split; [reflexivity|]. split; [vm_compute; reflexivity|].
  intros H. apply (f_equal this) in H. vm_compute in H. discriminate.
Qed.

(** C4 (the code): with no overrides [from_env] gives 50, 3.0, 300, 8;
    a malformed integer override falls back to its default; but a
    malformed [LOAD_MULTIPLIER] makes [float(...)] raise [ValueError]. *)
Theorem from_env_multiplier_unguarded :
  LoadProfileConfig_from_env ∅ = Ok (mkLoadProfileConfig 50 (PFin (Qc_of_Z 3)) 300 8) /\
  LoadProfileConfig_from_env {[ "LOAD_CONCURRENCY" := "x" ]} =
    Ok (mkLoadProfileConfig 50 (PFin (Qc_of_Z 3)) 300 8) /\
  LoadProfileConfig_from_env {[ "LOAD_MULTIPLIER" := "abc" ]} =
    Raise (ValueError "could not convert string to float: abc").
Proof.
  split; [|split].
  - vm_compute. do 3 f_equal. apply Qc_is_canon. reflexivity.
  - vm_compute. do 3 f_equal. apply Qc_is_canon. reflexivity.
  - vm_compute. reflexivity.
Qed.

(** C6 (the code): when the store answers an empty Dataset or [None],
    [success = status and ...] records the status object itself, not the
    bool [False], in the Sample's success field. *)
Theorem falsy_status_recorded_as_success :
  (forall storage self m,
     _send_single_dataset storage self empty_status_transport m =
       (m ++ [mkSample 0 1 (SStatus (StDataset None 0)) None
                (Some (ENonSuccess (StDataset None 0)))], Ok tt)) /\
  (forall storage self m,
     _send_single_dataset storage self
       (mkTransport None 0 1 (AssocReturns true) (StoreReturns StNone) None None) m =
       (m ++ [mkSample 0 1 (SStatus StNone) None (Some (ENonSuccess StNone))], Ok tt)) /\
  (forall b, SStatus (StDataset None 0) <> SBool b /\ SStatus StNone <> SBool b).
Proof.
  split; [|split].
  - intros storage self m. unfold _send_single_dataset. cbn [t_ctor empty_status_transport].
    rewrite build_ae_ok. reflexivity.
  - intros storage self m. unfold _send_single_dataset. cbn [t_ctor].
    rewrite build_ae_ok. reflexivity.
  - intros b. split; discriminate.
Qed.

Lemma filter_verification_nil (n : nat) (l : list PresentationContext) :
  Verification ∉ map abstract_syntax l ->
  filter (fun c => abstract_syntax c = Verification) (take n l) = [].
Proof.
  revert n. induction l as [|c l IH]; intros n Hl; destruct n; try reflexivity.
  change (take (S n) (c :: l)) with (c :: take n l). rewrite filter_cons_False.
  - apply IH. intros H. apply Hl. right. exact H.
  - intros H. apply Hl. rewrite <- H. left.
Qed.

(** C10: whatever the storage list, [_build_ae] returns an AE that
    requests its first 127 storage contexts followed by one Verification
    context, at most 128 in all; when the storage list holds no
    Verification context, exactly one of them is Verification. *)
Theorem build_ae_at_most_128 (storage : list PresentationContext) (title : list ascii) :
  Verification ∉ map abstract_syntax storage ->
  exists ae, _build_ae storage title None = Ok ae /\
    requested_contexts ae =
      take 127 storage ++ [mkPresentationContext Verification DEFAULT_TRANSFER_SYNTAXES] /\
    length (requested_contexts ae) = (Nat.min 127 (length storage) + 1)%nat /\
    (length (requested_contexts ae) <= 128)%nat /\
    length (filter (fun c => abstract_syntax c = Verification) (requested_contexts ae)) = 1%nat.
Proof.
  intros Hv. eexists. split; [apply build_ae_ok|]. cbn [requested_contexts].
  split; [reflexivity|].
  rewrite length_app, length_take. cbn [length].
  split; [reflexivity|]. split; [lia|].
  rewrite filter_app, filter_verification_nil by exact Hv.
  rewrite filter_cons_True by reflexivity. reflexivity.
Qed.

Lemma build_ae_at_most_128_witness :
  (Verification ∉ map abstract_syntax many_storage_contexts) /\
  exists ae, _build_ae many_storage_contexts (encode_ascii "PERF_SENDER") None = Ok ae /\
    requested_contexts ae =
      take 127 many_storage_contexts ++ [mkPresentationContext Verification DEFAULT_TRANSFER_SYNTAXES] /\
    length (requested_contexts ae) = (Nat.min 127 (length many_storage_contexts) + 1)%nat /\
    (length (requested_contexts ae) <= 128)%nat /\
    length (filter (fun c => abstract_syntax c = Verification) (requested_contexts ae)) = 1%nat.
Proof.
  assert (Hv : Verification ∉ map abstract_syntax many_storage_contexts)
    by (apply (bool_decide_unpack _); vm_compute; exact I).
  split; [exact Hv|].
  apply build_ae_at_most_128. exact Hv.
Defined.

Lemma p95_nearest_rank_witness :
  Sorted Qcle (merge_sort Qcle (Stats._latencies scenarioB)) /\
  merge_sort Qcle (Stats._latencies scenarioB) ≡ₚ Stats._latencies scenarioB /\
  (0 <= 6 < 8)%Z /\
  Stats.p95_latency_ms scenarioB = merge_sort Qcle (Stats._latencies scenarioB) !! 6%nat.
Proof.
  assert (Hs : Sorted Qcle (merge_sort Qcle (Stats._latencies scenarioB)))
    by apply (Sorted_merge_sort Qcle).
  assert (Hp : merge_sort Qcle (Stats._latencies scenarioB) ≡ₚ Stats._latencies scenarioB)
    by apply (merge_sort_Permutation Qcle).
  split; [exact Hs|split; [exact Hp|]].
  destruct (proj1 p95_nearest_rank scenarioB) as [[E _]|[_ H]].
  - vm_compute in E. discriminate.
  - destruct (H _ Hs Hp) as (Hk & Hq & _). split; [exact Hk|exact Hq].
Defined.

(* ------------------------------------------------------------------ *)
(** * Further properties of the code *)

Section IntRoundTrip.


Lemma digit_val_char (d : Z) : (0 <= d <= 9)%Z -> digit_val (digit_char d) = Some d.
Proof.
  intros Hd. unfold digit_val, digit_char.
  rewrite Ascii.nat_ascii_embedding by lia.
  replace (Z.of_nat (48 + Z.to_nat d)) with (48 + d)%Z by lia.
  destruct ((48 <=? 48 + d) && (48 + d <=? 57))%Z eqn:E.
  - f_equal. lia.
  - apply andb_false_iff in E. destruct E as [E|E]; apply Z.leb_gt in E; lia.
Qed.

Lemma digit_char_not_space (d : Z) : (0 <= d <= 9)%Z -> is_py_space (digit_char d) = false.
Proof.
  intros Hd. unfold is_py_space, digit_char.
  rewrite Ascii.nat_ascii_embedding by lia.
  apply orb_false_iff. split; apply andb_false_iff; right; apply Nat.leb_gt; lia.
Qed.


Lemma decimal_digits_S (f : nat) (n : Z) :
  decimal_digits (S f) n =
  if (n <? 10)%Z then [digit_char n]
  else decimal_digits f (n / 10) ++ [digit_char (n mod 10)].
Proof. reflexivity. Qed.

Lemma decimal_digits_spec (f : nat) (n : Z) :
  (0 <= n < 2 ^ Z.of_nat (S f))%Z ->
  decimal_digits (S f) n <> [] /\
  Forall is_digit (decimal_digits (S f) n) /\
  fold_left (fun a c => a * 10 + dval c)%Z (decimal_digits (S f) n) 0%Z = n.
Proof.
  revert n. induction f as [|f IH]; intros n Hn; rewrite decimal_digits_S.
  - destruct (n <? 10)%Z eqn:E; [|apply Z.ltb_ge in E; cbn in Hn; lia].
    apply Z.ltb_lt in E.
    split; [discriminate|split].
    + constructor; [|constructor]. split; [rewrite digit_val_char by lia; eauto|].
      apply digit_char_not_space. lia.
    + cbn. unfold dval. rewrite digit_val_char by lia. lia.
  - destruct (n <? 10)%Z eqn:E.
    + apply Z.ltb_lt in E.
      split; [discriminate|split].
      * constructor; [|constructor]. split; [rewrite digit_val_char by lia; eauto|].
        apply digit_char_not_space. lia.
      * cbn. unfold dval. rewrite digit_val_char by lia. lia.
    + apply Z.ltb_ge in E.
      assert (Hq : (0 <= n / 10 < 2 ^ Z.of_nat (S f))%Z).
      { split; [apply Z.div_pos; lia|].
        rewrite Nat2Z.inj_succ, Z.pow_succ_r in Hn by lia.
        apply Z.div_lt_upper_bound; lia. }
      destruct (IH (n / 10)%Z Hq) as (Hne & Hf & Hv).
      assert (Hm : (0 <= n mod 10 <= 9)%Z) by (pose proof (Z.mod_pos_bound n 10); lia).
      split; [intros Hc; apply app_eq_nil in Hc; destruct Hc as [_ Hc]; discriminate|split].
      * apply Forall_app. split; [exact Hf|].
        constructor; [|constructor]. split; [rewrite digit_val_char by lia; eauto|].
        apply digit_char_not_space. lia.
      * rewrite fold_left_app, Hv. cbn. unfold dval. rewrite digit_val_char by lia.
        pose proof (Z.div_mod n 10). lia.
Qed.

Lemma digit_run_from_digits (ds : list ascii) (acc : Z) (cnt : nat) :
  Forall is_digit ds ->
  digit_run_from ds acc cnt =
    (fold_left (fun a c => a * 10 + dval c)%Z ds acc, (cnt + length ds)%nat, []).
Proof.
  revert acc cnt. induction ds as [|c ds IH]; intros acc cnt Hf; cbn.
  - f_equal. f_equal. lia.
  - inversion Hf as [|? ? [[d Hd] _] Hf']; subst.
    rewrite Hd. rewrite IH by exact Hf'.
    replace (dval c) with d by (unfold dval; rewrite Hd; reflexivity).
    do 2 f_equal. lia.
Qed.

Lemma lstrip_no_space (cs : list ascii) :
  Forall (fun c => is_py_space c = false) cs -> lstrip cs = cs.
Proof. intros Hf. destruct Hf as [|c cs Hc _]; cbn; [reflexivity|]. rewrite Hc. reflexivity. Qed.

Lemma strip_no_space (cs : list ascii) :
  Forall (fun c => is_py_space c = false) cs -> strip cs = cs.
Proof.
  intros Hf. unfold strip. rewrite (lstrip_no_space cs Hf).
  rewrite (lstrip_no_space (rev cs)) by (apply Forall_rev; exact Hf). apply rev_involutive.
Qed.

Lemma split_sign_digit (c : ascii) (cs : list ascii) :
  is_Some (digit_val c) -> split_sign (c :: cs) = (false, c :: cs).
Proof.
  intros [d Hd]. destruct c as [[] [] [] [] [] [] [] []]; try reflexivity;
    vm_compute in Hd; discriminate.
Qed.

Lemma py_int_py_str_int (n : Z) : py_int (py_str_int n) = Some n.
Proof.
  unfold py_int, py_str_int.
  set (f := Z.to_nat (Z.log2 (Z.abs n))).
  assert (Hb : (0 <= Z.abs n < 2 ^ Z.of_nat (S f))%Z).
  { split; [lia|]. unfold f.
    destruct (Z.eq_dec n 0%Z) as [->|Hn]; [cbn; lia|].
    rewrite Nat2Z.inj_succ, Z2Nat.id by apply Z.log2_nonneg.
    apply Z.log2_spec. lia. }
  destruct (decimal_digits_spec f (Z.abs n) Hb) as (Hne & Hf & Hv).
  rewrite list_ascii_of_string_of_list_ascii.
  destruct (decimal_digits (S f) (Z.abs n)) as [|c ds] eqn:Ed; [congruence|].
  assert (Hsp : Forall (fun c => is_py_space c = false) (c :: ds)).
  { eapply Forall_impl; [exact Hf|]. intros x [_ Hx]. exact Hx. }
  inversion Hf as [|? ? [[d Hd] _] Hf']; subst.
  destruct (n <? 0)%Z eqn:Hneg.
  - rewrite strip_no_space by (constructor; [reflexivity|exact Hsp]).
    cbn [split_sign digit_run]. rewrite Hd, digit_run_from_digits by exact Hf'.
    cbn [fold_left] in Hv.
    replace (dval c) with d in Hv by (unfold dval; rewrite Hd; reflexivity).
    replace (0 * 10 + d)%Z with d in Hv by lia. rewrite Hv. f_equal. lia.
  - rewrite strip_no_space by exact Hsp.
    rewrite split_sign_digit by (rewrite Hd; eauto).
    cbn [digit_run]. rewrite Hd, digit_run_from_digits by exact Hf'.
    cbn [fold_left] in Hv.
    replace (dval c) with d in Hv by (unfold dval; rewrite Hd; reflexivity).
    replace (0 * 10 + d)%Z with d in Hv by lia. rewrite Hv. f_equal. lia.
Qed.

End IntRoundTrip.

Section MoreStats.

(** X1. [successes] and [failures] split the samples: their sum is [total]. *)
Lemma successes_failures_total (xs : list Sample) :
  (Stats.successes xs + Stats.failures xs)%nat = Stats.total xs.
Proof.
  unfold Stats.successes, Stats.failures, Stats.total.
  induction xs as [|s xs IH]; [reflexivity|].
  rewrite !filter_cons. destruct (truthy (success s)); cbn;
    repeat (case_decide; try congruence); cbn; lia.
Qed.

Lemma this_Qc_of_nat (n : nat) : (this (Qc_of_nat n) == inject_Z (Z.of_nat n))%Q.
Proof. unfold Qc_of_nat. cbn. apply Qred_correct. Qed.

Lemma this_div (x y : Qc) : (this (x / y) == this x / this y)%Q.
Proof. unfold Qcdiv, Qcmult, Qcinv. cbn. rewrite !Qred_correct. reflexivity. Qed.

Lemma nat_ratio_bounds (f t : nat) :
  (f <= t)%nat -> (0 < t)%nat -> 0 <= Qc_of_nat f / Qc_of_nat t <= 1.
Proof.
  intros Hft Ht. unfold Qcle. rewrite this_div, !this_Qc_of_nat. cbn [this Q2Qc].
  assert (Ht' : (0 < inject_Z (Z.of_nat t))%Q)
    by (change 0%Q with (inject_Z 0); rewrite <- Zlt_Qlt; lia).
  split.
  - apply Qle_shift_div_l; [exact Ht'|]. rewrite Qmult_0_l.
    change 0%Q with (inject_Z 0). rewrite <- Zle_Qle. lia.
  - apply Qle_shift_div_r; [exact Ht'|]. rewrite Qmult_1_l.
    rewrite <- Zle_Qle. lia.
Qed.

(** X2. [error_rate] always lies between 0 and 1. *)
Theorem error_rate_in_unit_interval (xs : list Sample) :
  0 <= Stats.error_rate xs <= 1.
Proof.
  unfold Stats.error_rate. destruct (Nat.eqb_spec (Stats.total xs) 0) as [E|E].
  - split; [apply Qcle_refl|]. unfold Qcle. cbn. discriminate.
  - apply nat_ratio_bounds; [|lia].
    rewrite <- (successes_failures_total xs). lia.
Qed.

(** X3. [error_rate] is 0 exactly when no sample failed. *)
Theorem error_rate_zero_iff_no_failure (xs : list Sample) :
  Stats.error_rate xs = 0 <-> Stats.failures xs = 0%nat.
Proof.
  pose proof (successes_failures_total xs) as Hsum.
  unfold Stats.error_rate. destruct (Nat.eqb_spec (Stats.total xs) 0) as [E|E].
  - split; [intros _; lia|reflexivity].
  - split.
    + intros H. apply (f_equal this) in H.
      assert (Hq : (inject_Z (Z.of_nat (Stats.failures xs)) / inject_Z (Z.of_nat (Stats.total xs)) == 0)%Q).
      { rewrite <- !this_Qc_of_nat, <- this_div, H. reflexivity. }
      assert (Ht : ~ (inject_Z (Z.of_nat (Stats.total xs)) == 0)%Q).
      { change 0%Q with (inject_Z 0). rewrite inject_Z_injective. lia. }
      assert (Hf : (inject_Z (Z.of_nat (Stats.failures xs)) == 0)%Q).
      { rewrite <- (Qmult_0_l (inject_Z (Z.of_nat (Stats.total xs)))), <- Hq.
        field. exact Ht. }
      change 0%Q with (inject_Z 0) in Hf. rewrite inject_Z_injective in Hf. lia.
    + intros H. rewrite H. apply Qc_is_canon. rewrite this_div. cbn. reflexivity.
Qed.

End MoreStats.

Section LatencyOrder.

Lemma this_plus (x y : Qc) : (this (x + y) == this x + this y)%Q.
Proof. unfold Qcplus. cbn. apply Qred_correct. Qed.

Lemma sum_Qc_lower (m : Qc) (l : list Qc) :
  Forall (fun y => m <= y) l ->
  (inject_Z (Z.of_nat (length l)) * this m <= this (Stats.sum_Qc l))%Q.
Proof.
  induction 1 as [|y l Hy Hl IH]; cbn [Stats.sum_Qc fold_right length].
  - cbn. rewrite Qmult_0_l. apply Qle_refl.
  - fold (Stats.sum_Qc l). rewrite this_plus.
    rewrite Nat2Z.inj_succ, <- Z.add_1_r, inject_Z_plus.
    unfold Qcle in Hy.
    assert (E : ((inject_Z (Z.of_nat (length l)) + inject_Z 1) * this m ==
                 this m + inject_Z (Z.of_nat (length l)) * this m)%Q) by ring.
    rewrite E.
    apply Qplus_le_compat; [exact Hy|exact IH].
Qed.

(** X4. When there is a minimum latency, the mean and the p95 exist, are at least
    the minimum, and the p95 is one of the recorded latencies. *)
Theorem latency_order (xs : list Sample) (m : Qc) :
  Stats.min_latency_ms xs = Some m ->
  (exists a, Stats.avg_latency_ms xs = Some a /\ m <= a) /\
  (exists p, Stats.p95_latency_ms xs = Some p /\ p ∈ Stats._latencies xs /\ m <= p).
Proof.
  unfold Stats.min_latency_ms, Stats.avg_latency_ms, Stats.p95_latency_ms.
  destruct (Stats._latencies xs) as [|x l] eqn:El; [discriminate|].
  intros [= <-].
  destruct (py_min_le x l) as [_ Hall].
  split.
  - eexists. split; [reflexivity|].
    unfold Qcle. rewrite this_div, this_Qc_of_nat.
    assert (Hn : (0 < inject_Z (Z.of_nat (length (x :: l))))%Q)
      by (change 0%Q with (inject_Z 0); rewrite <- Zlt_Qlt; cbn [length]; lia).
    apply Qle_shift_div_l; [exact Hn|]. rewrite Qmult_comm.
    apply sum_Qc_lower. exact Hall.
  - pose proof (merge_sort_Permutation Qcle (x :: l)) as Hp.
    destruct (merge_sort Qcle (x :: l)) as [|y ys] eqn:Es.
    { apply Permutation_length in Hp. discriminate. }
    set (k := Z.to_nat (Stats.p95_index (length (y :: ys)))).
    assert (Hk : (k < length (y :: ys))%nat).
    { unfold k, Stats.p95_index. cbn [length]. lia. }
    destruct (lookup_lt_is_Some_2 (y :: ys) k Hk) as [p Hpk].
    exists p. rewrite nth_error_list_lookup. fold k. rewrite Hpk.
    assert (Hin : p ∈ x :: l).
    { rewrite <- Hp. eapply list_elem_of_lookup_2. exact Hpk. }
    split; [reflexivity|split; [exact Hin|]].
    rewrite Forall_forall in Hall. apply Hall. exact Hin.
Qed.

End LatencyOrder.

Section Throughput.

Lemma py_max_floor (x e : Qc) : e <= Stats.py_max x [e].
Proof.
  unfold Stats.py_max. cbn. destruct (decide (x < e)) as [H|H].
  - apply Qcle_refl.
  - apply Qcnot_lt_le. exact H.
Qed.

Lemma Qc_div_nonneg (a b : Qc) : 0 <= a -> 0 < b -> 0 <= a / b.
Proof.
  intros Ha Hb. unfold Qcle, Qclt in *. rewrite this_div. cbn in Ha, Hb |- *.
  apply Qle_shift_div_l; [exact Hb|]. rewrite Qmult_0_l. exact Ha.
Qed.

(** X6. [throughput_per_second] is 0 on no samples and never negative. *)
Theorem throughput_nonneg (xs : list Sample) (window_seconds : option Qc) :
  Stats.throughput_per_second [] window_seconds = 0 /\
  0 <= Stats.throughput_per_second xs window_seconds.
Proof.
  split; [reflexivity|].
  destruct xs as [|s0 rest]; [apply Qcle_refl|]. cbn [Stats.throughput_per_second].
  apply Qc_div_nonneg.
  - unfold Qcle. rewrite this_Qc_of_nat. change (this (Q2Qc 0)) with (inject_Z 0).
    rewrite <- Zle_Qle. lia.
  - eapply Qclt_le_trans; [|apply py_max_floor]. unfold Qclt. cbn. reflexivity.
Qed.

Lemma filter_all {A} (P : A -> Prop) `{forall x, Decision (P x)} (l : list A) :
  Forall P l -> filter P l = l.
Proof.
  induction 1 as [|x l Hx Hl IH]; [reflexivity|].
  rewrite filter_cons_True by exact Hx. rewrite IH. reflexivity.
Qed.

(** X7. Without a window, every sample is counted: the throughput is [total]
    over the span from the earliest start to the latest end (at least 1e-9 s). *)
Theorem throughput_whole_run (s0 : Sample) (rest : list Sample) :
  let end_t := Stats.py_max (end_time s0) (map end_time rest) in
  let start_t := Stats.py_min (start_time s0) (map start_time rest) in
  Stats.throughput_per_second (s0 :: rest) None =
    Qc_of_nat (Stats.total (s0 :: rest)) /
    Stats.py_max (end_t - start_t) [Q2Qc (1 # 1000000000)].
Proof.
  intros end_t start_t. cbn [Stats.throughput_per_second]. fold end_t start_t.
  f_equal. f_equal. f_equal.
  apply filter_all.
  destruct (py_min_le (start_time s0) (map start_time rest)) as [_ Hall].
  fold start_t in Hall.
  change (start_time s0 :: map start_time rest) with (map start_time (s0 :: rest)) in Hall.
  rewrite Forall_map in Hall.
  eapply Forall_impl; [exact Hall|]. intros s Hs. cbn. rewrite (bool_decide_eq_true_2 _ Hs). exact I.
Qed.

End Throughput.

Section RecordCounts.

Lemma record_appends (pm : PerfMetrics) (h : heap) (xs : list Sample) (s : Sample) :
  list_contents h (_samples pm) = Some xs ->
  exists h', PM.record pm s h = Some (tt, h') /\ h !! _samples pm <> None /\
             list_contents h' (_samples pm) = Some (xs ++ [s]).
Proof.
  intros Hxs. unfold list_contents in Hxs.
  destruct (h !! _samples pm) as [[its|]|] eqn:Hi; try discriminate.
  destruct (alloc_fresh (OSample s) h) as (sl & Ea & Hn & S).
  assert (Hne : sl <> _samples pm) by (intros ->; congruence).
  exists (<[_samples pm := OList (its ++ [sl])]> (<[sl := OSample s]> h)).
  split; [|split; [congruence|]].
  - unfold PM.record, bindM. rewrite Ea. cbv beta.
    rewrite (lookup_insert_ne h sl (_samples pm) _ Hne), Hi. reflexivity.
  - unfold list_contents. rewrite lookup_insert_eq.
    apply read_samples_app.
    + apply (read_samples_insert_list _ _ _ its); [|exact (read_samples_mono h _ its xs S Hxs)].
      rewrite (lookup_insert_ne h sl (_samples pm) _ Hne). exact Hi.
    + cbn. rewrite (lookup_insert_ne _ (_samples pm) sl _ (not_eq_sym Hne)), lookup_insert_eq.
      reflexivity.
Qed.

(** X8. [record] adds one to [total] and one to [successes] or to [failures],
    according to the truthiness of the sample's [success]. *)
Theorem record_updates_counts (pm : PerfMetrics) (h : heap) (xs : list Sample) (s : Sample) :
  list_contents h (_samples pm) = Some xs ->
  exists h', PM.record pm s h = Some (tt, h') /\
    option_map fst (PM.total pm h') = Some (S (Stats.total xs)) /\
    option_map fst (PM.successes pm h') =
      Some (Stats.successes xs + if truthy (success s) then 1 else 0)%nat /\
    option_map fst (PM.failures pm h') =
      Some (Stats.failures xs + if truthy (success s) then 0 else 1)%nat.
Proof.
  intros Hxs. destruct (record_appends pm h xs s Hxs) as (h' & Er & _ & Hc).
  exists h'. split; [exact Er|].
  destruct (Reads_over_samples pm Stats.total h' _ Hc) as (h1 & E1 & _).
  destruct (Reads_over_samples pm Stats.successes h' _ Hc) as (h2 & E2 & _).
  destruct (Reads_over_samples pm Stats.failures h' _ Hc) as (h3 & E3 & _).
  unfold PM.total, PM.successes, PM.failures. rewrite E1, E2, E3. cbn [option_map fst].
  unfold Stats.total, Stats.successes, Stats.failures.
  rewrite !filter_app, !length_app, !filter_cons, !filter_nil.
  split; [cbn; f_equal; lia|].
  destruct (truthy (success s)); cbn;
    repeat case_decide; try congruence; cbn; split; f_equal; lia.
Qed.

End RecordCounts.

Section ConfigProps.

(** X9. [_env_int] reads back an integer written as [str(n)]: with the variable
    set to [str(n)] it returns [n], whatever the default, for every [n] of
    at most 640 digits (CPython's [int()] refuses longer strings once
    [sys.set_int_max_str_digits] lowers its limit to the 640-digit floor;
    the default limit is 4300 digits). *)
Theorem env_int_reads_str (env : environ) (name : string) (default n : Z) :
  (Z.abs n < 10 ^ 640)%Z ->
  _env_int (<[name := py_str_int n]> env) name default = n.
Proof.
  intros _. unfold _env_int. rewrite lookup_insert_eq, py_int_py_str_int. reflexivity.
Qed.

Lemma env_int_reads_str_witness :
  _env_int (<[ "COMPASS_PORT"%string := py_str_int (-104729) ]> ∅) "COMPASS_PORT" 11112 =
    (-104729)%Z.
Proof.
  apply (env_int_reads_str ∅ "COMPASS_PORT" 11112 (-104729)). vm_compute. reflexivity.
Defined.

(** X10. [DicomEndpointConfig.from_env]: the local AE title is never empty; it is
    the variable's value when set and non-empty and PERF_SENDER when unset or
    set to the empty string; the host and remote AE title are the variables'
    values when set. *)
Theorem endpoint_from_env_titles (env : environ) :
  local_ae_title (DicomEndpointConfig_from_env env) <> ""%string /\
  (forall v, env !! "LOCAL_AE_TITLE"%string = Some v -> v <> ""%string ->
     local_ae_title (DicomEndpointConfig_from_env env) = v) /\
  (env !! "LOCAL_AE_TITLE"%string = None ->
     local_ae_title (DicomEndpointConfig_from_env env) = "PERF_SENDER"%string) /\
  (env !! "LOCAL_AE_TITLE"%string = Some ""%string ->
     local_ae_title (DicomEndpointConfig_from_env env) = "PERF_SENDER"%string) /\
  (forall v, env !! "COMPASS_HOST"%string = Some v -> host (DicomEndpointConfig_from_env env) = v) /\
  (forall v, env !! "COMPASS_AE_TITLE"%string = Some v ->
     remote_ae_title (DicomEndpointConfig_from_env env) = v).
Proof.
  unfold DicomEndpointConfig_from_env, _env_str. cbn [local_ae_title host remote_ae_title].
  split; [|split; [|split; [|split; [|split]]]].
  - destruct (env !! "LOCAL_AE_TITLE"%string) as [v|]; [|discriminate].
    destruct (String.eqb_spec v "") as [E|E]; [discriminate|exact E].
  - intros v Ev Hv. rewrite Ev. destruct (String.eqb_spec v "") as [E|E]; congruence.
  - intros Ev. rewrite Ev. reflexivity.
  - intros Ev. rewrite Ev. reflexivity.
  - intros v Ev. rewrite Ev. reflexivity.
  - intros v Ev. rewrite Ev. reflexivity.
Qed.

End ConfigProps.

Section PingSendProps.

Variable storage : list PresentationContext.

(** X11. [ping] returns True exactly when the AE is built, the association is
    established, the C-ECHO answers a Status of 0x0000, and neither release
    nor shutdown raises. *)
Theorem ping_true_iff (self : DicomSender) (t : EchoTransport) :
  ping storage self t = Ok true <->
  e_ctor t = None /\ e_assoc t = AssocReturns true /\
  (exists k, e_echo t = EchoReturns (StDataset (Some 0%Z) k)) /\
  e_release t = None /\ e_shutdown t = None.
Proof.
  unfold ping. destruct t as [ctor assoc echo rel shut]; cbn [e_ctor e_assoc e_echo e_release e_shutdown].
  split.
  - destruct ctor as [e|]; [discriminate|]. rewrite build_ae_ok.
    destruct shut as [e|]; [discriminate|].
    destruct assoc as [e|[|]]; try discriminate.
    destruct echo as [e|st]; [discriminate|].
    destruct rel as [e|]; [discriminate|].
    destruct (status_truthy st) eqn:Et; [|discriminate].
    destruct st as [|[c|] k]; try discriminate.
    intros H. injection H as H. apply Z.eqb_eq in H. subst c.
    repeat split; eauto.
  - intros (-> & -> & [k ->] & -> & ->). rewrite build_ae_ok. reflexivity.
Qed.

(** X12. [ping] does not catch: an exception of [associate] propagates out of it. *)
Theorem ping_propagates_associate_error (self : DicomSender) (t : EchoTransport) (e : PyExc) :
  e_ctor t = None -> e_assoc t = AssocRaises e -> e_shutdown t = None ->
  ping storage self t = Raise e.
Proof.
  intros Hc Ha Hs. unfold ping. rewrite Hc, build_ae_ok. cbv iota beta zeta.
  rewrite Hs, Ha. reflexivity.
Qed.

(** X13. When the AE is built and nothing escapes the [try], [_send_single_dataset]
    records exactly one sample, a success exactly when the association was
    established, the store answered Status 0x0000 and the release did not raise. *)
Theorem send_sample_success_iff (self : DicomSender) (t : Transport) (m : list Sample) :
  t_ctor t = None -> body_caught t = true ->
  exists s, (_send_single_dataset storage self t m).1 = m ++ [s] /\
    (truthy (success s) = true <->
     t_assoc t = AssocReturns true /\
     (exists k, t_store t = StoreReturns (StDataset (Some 0%Z) k)) /\
     t_release t = None).
Proof.
  intros Hc Hb. unfold _send_single_dataset. rewrite Hc, build_ae_ok. cbv iota beta zeta.
  unfold body_caught in Hb.
  destruct t as [ctor t0 t1 assoc store rel shut]; cbn [t_assoc t_store t_release t_shutdown t_start t_end] in *.
  assert (Hshut : forall (r : list Sample * Result unit),
            (match shut with Some e => (r.1, Raise e) | None => r end).1 = r.1)
    by (intros r; destruct shut; reflexivity).
  destruct assoc as [e|[|]].
  - rewrite Hb, Hshut. eexists. split; [reflexivity|]. cbn.
    split; [discriminate|intros (? & _); discriminate].
  - destruct store as [e|st].
    + rewrite Hb, Hshut. eexists. split; [reflexivity|]. cbn.
      split; [discriminate|intros (_ & [k ?] & _); discriminate].
    + destruct rel as [e|].
      * rewrite Hb, Hshut. eexists. split; [reflexivity|]. cbn.
        split; [discriminate|intros (_ & _ & ?); discriminate].
      * destruct (success_value st) as [sv|e] eqn:Es.
        -- rewrite Hshut. eexists. split; [reflexivity|]. cbn [success].
           unfold success_value in Es.
           destruct (status_truthy st) eqn:Et.
           ++ destruct st as [|[c|] k]; try discriminate. injection Es as <-. cbn.
              split.
              ** intros H. apply Z.eqb_eq in H. subst c. eauto.
              ** intros (_ & [k' Hk] & _). injection Hk as -> _. reflexivity.
           ++ injection Es as <-. cbn. rewrite Et.
              split; [discriminate|].
              intros (_ & [k' Hk] & _). injection Hk as ->.
              cbn in Et. apply bool_decide_eq_false in Et. lia.
        -- assert (He : exc_is_Exception e = true).
           { unfold success_value in Es.
             destruct (status_truthy st) eqn:Et; [|discriminate].
             destruct st as [|[c|] o]; try discriminate; injection Es as <-; reflexivity. }
           rewrite He, Hshut. eexists. split; [reflexivity|]. cbn.
           split; [discriminate|].
           intros (_ & [k Hk] & _). injection Hk as ->.
           unfold success_value in Es. cbn in Es. discriminate.
  - rewrite Hshut. eexists. split; [reflexivity|]. cbn.
    split; [discriminate|intros (? & _); discriminate].
Qed.

(** X14. An [AE(...)] that raises records nothing and its exception
    propagates out of [_send_single_dataset]; when the AE is built and
    [ae.shutdown()] raises, its exception propagates after the samples of
    the [try] are recorded as without that error. *)
Theorem send_shutdown_error_keeps_sample (self : DicomSender) (t : Transport) (m : list Sample) :
  (forall e', t_ctor t = Some e' -> _send_single_dataset storage self t m = (m, Raise e')) /\
  (forall e, t_ctor t = None -> t_shutdown t = Some e ->
   _send_single_dataset storage self t m =
     ((_send_single_dataset storage self
         (mkTransport (t_ctor t) (t_start t) (t_end t) (t_assoc t) (t_store t)
                      (t_release t) None) m).1, Raise e)).
Proof.
  destruct t as [ctor t0 t1 assoc store rel shut];
    cbn [t_ctor t_start t_end t_assoc t_store t_release t_shutdown].
  split.
  - intros e' ->. reflexivity.
  - intros e -> ->. unfold _send_single_dataset. cbn [t_ctor]. rewrite build_ae_ok. reflexivity.
Qed.

End PingSendProps.

Section LoopProps.

Variable storage : list PresentationContext.

(** X15. [load_test_for_duration] with a concurrency of 0 or less raises
    ValueError from [ThreadPoolExecutor] before submitting anything, when
    the float conversions before it do not overflow: [duration_seconds]
    and, with no rate limit, [peak_images_per_second] convert to float. *)
Theorem load_test_bad_concurrency {D} (self : DicomSender) (datasets : list D)
    (m : list Sample) (dur : Z) (conc : option Z) (rate : option PyFloat)
    (c0 : Qc) (clock : list Qc) (workers : nat -> Transport) (completion : list nat) :
  int_to_float_ok dur ->
  (rate = None -> int_to_float_ok (peak_images_per_second (load_profile self))) ->
  (match conc with None => concurrency (load_profile self) | Some c => c end <= 0)%Z ->
  load_test_for_duration storage self datasets m dur conc rate (c0 :: clock) workers completion =
    Some (mkRunTrace [] m (Raise (ValueError "max_workers must be greater than 0"))).
Proof.
  intros _ _ H. unfold load_test_for_duration.
  destruct (_ <=? 0)%Z eqn:E; [reflexivity|]. apply Z.leb_gt in E. lia.
Qed.

Lemma submit_loop_cycle {D} (datasets : list D) (period stop_at : Qc) (fuel : nat) :
  forall clock next i subs exc,
  submit_loop datasets period stop_at fuel clock next i = Some (subs, exc) ->
  forall k s, subs !! k = Some s -> cycle_next datasets (i + k) = Some (sub_dataset s).
Proof.
  induction fuel as [|fuel IH]; intros clock next i subs exc H; [discriminate|].
  cbn in H.
  destruct clock as [|c clock1]; [discriminate|].
  destruct (decide (c < stop_at)); [|injection H as <- _; intros k s Hk; discriminate].
  destruct clock1 as [|now clock2]; [discriminate|].
  destruct clock2 as [|after clock3]; [discriminate|].
  destruct (cycle_next datasets i) as [ds|] eqn:Ec; [|injection H as <- _; intros k s Hk; discriminate].
  destruct (submit_loop _ _ _ _ _ _ _) as [[subs' exc']|] eqn:E; [|discriminate].
  injection H as <- _. intros [|k] s Hk.
  - injection Hk as <-. rewrite Nat.add_0_r. exact Ec.
  - cbn in Hk. rewrite <- Nat.add_succ_comm. exact (IH _ _ _ _ _ E k s Hk).
Qed.

(** X16. The k-th submission of [load_test_for_duration] sends dataset number
    k mod n of the n datasets. *)
Theorem load_test_cycles_datasets {D} (self : DicomSender) (datasets : list D)
    (m : list Sample) (dur : Z) (conc : option Z) (rate : option PyFloat)
    (clock : list Qc) (workers : nat -> Transport) (completion : list nat) (rt : RunTrace D) :
  load_test_for_duration storage self datasets m dur conc rate clock workers completion = Some rt ->
  forall k s, rt_submissions rt !! k = Some s ->
    datasets !! (k mod length datasets) = Some (sub_dataset s).
Proof.
  intros Hrun k s Hk. unfold load_test_for_duration in Hrun.
  destruct clock as [|c0 clock1]; [discriminate|].
  destruct (_ <=? 0)%Z.
  { injection Hrun as <-. discriminate. }
  destruct clock1 as [|c1 clock2]; [discriminate|].
  destruct (submit_loop _ _ _ _ _ _ _) as [[subs exc]|] eqn:E; [|discriminate].
  destruct (run_tasks _ _ _ _ _) as [m' rs].
  injection Hrun as <-. cbn in Hk.
  pose proof (submit_loop_cycle _ _ _ _ _ _ _ _ _ E k s Hk) as Hc.
  unfold cycle_next in Hc. destruct datasets; [discriminate|].
  rewrite <- nth_error_list_lookup. exact Hc.
Qed.

Lemma paced_sleep_pos {D} (period prev : Qc) (subs : list (Submission D)) :
  paced period prev subs ->
  forall s d, s ∈ subs -> sub_sleep s = Some d -> 0 < period /\ 0 < d.
Proof.
  revert prev. induction subs as [|s0 subs IH]; intros prev Hp s d Hin Hs.
  { apply elem_of_nil in Hin. contradiction. }
  destruct Hp as (Hsl & _ & Hp).
  apply elem_of_cons in Hin as [->|Hin]; [|exact (IH _ Hp s d Hin Hs)].
  rewrite Hsl in Hs.
  destruct (bool_decide (0 < period)) eqn:E1; [|discriminate].
  destruct (bool_decide (sub_now s0 < prev)) eqn:E2; [|discriminate].
  injection Hs as <-. apply bool_decide_eq_true in E1, E2.
  split; [exact E1|]. apply Qclt_minus_iff in E2. exact E2.
Qed.

(** X17. [load_test_for_duration] sleeps only when the period is positive, and
    every sleep is for a positive time. *)
Theorem load_test_sleeps_positive {D} (self : DicomSender) (datasets : list D)
    (m : list Sample) (dur : Z) (conc : option Z) (rate : option PyFloat)
    (clock : list Qc) (workers : nat -> Transport) (completion : list nat) (rt : RunTrace D) :
  load_test_for_duration storage self datasets m dur conc rate clock workers completion = Some rt ->
  forall s d, s ∈ rt_submissions rt -> sub_sleep s = Some d ->
    0 < send_period (target_rate self rate) /\ 0 < d.
Proof.
  intros Hrun. unfold load_test_for_duration in Hrun.
  destruct clock as [|c0 clock1]; [discriminate|].
  destruct (_ <=? 0)%Z.
  { injection Hrun as <-. intros s d Hin. cbn in Hin. apply elem_of_nil in Hin. contradiction. }
  destruct clock1 as [|c1 clock2]; [discriminate|].
  destruct (submit_loop _ _ _ _ _ _ _) as [[subs exc]|] eqn:E; [|discriminate].
  destruct (run_tasks _ _ _ _ _) as [m' rs].
  injection Hrun as <-. cbn.
  apply (paced_sleep_pos _ c1). eapply submit_loop_paced. exact E.
Qed.


Lemma Sorted_head_le (x y : Qc) (l : list Qc) :
  Sorted Qcle (x :: l) -> y ∈ l -> x <= y.
Proof.
  intros Hs Hy. apply Sorted_StronglySorted in Hs; [|intros a b c; apply Qcle_trans].
  inversion Hs as [|? ? _ Hall]; subst. rewrite Forall_forall in Hall. apply Hall. exact Hy.
Qed.

(** X19. With a duration of 0 or less (a monotonic clock, and float
    conversions that do not overflow, as in X15), [load_test_for_duration]
    submits nothing and returns 0. *)
Theorem load_test_nonpositive_duration {D} (self : DicomSender) (datasets : list D)
    (m : list Sample) (dur : Z) (conc : option Z) (rate : option PyFloat)
    (clock : list Qc) (workers : nat -> Transport) (rt : RunTrace D) :
  int_to_float_ok dur ->
  (rate = None -> int_to_float_ok (peak_images_per_second (load_profile self))) ->
  (0 < match conc with None => concurrency (load_profile self) | Some c => c end)%Z ->
  (dur <= 0)%Z -> Sorted Qcle clock ->
  load_test_for_duration storage self datasets m dur conc rate clock workers [] = Some rt ->
  rt_submissions rt = [] /\ rt_metrics rt = m /\ rt_result rt = Ok 0%nat.
Proof.
  intros _ _ Hc Hd Hs Hrun. unfold load_test_for_duration in Hrun.
  destruct clock as [|c0 clock1]; [discriminate|].
  destruct (_ <=? 0)%Z eqn:E; [apply Z.leb_le in E; lia|].
  destruct clock1 as [|c1 [|c2 clock]]; try (cbn in Hrun; discriminate).
  assert (Hge : c0 + Qc_of_Z dur <= c2).
  { apply Qcle_trans with c0.
    - unfold Qcle. rewrite this_plus. cbn [this Qc_of_Z Q2Qc].
      rewrite Qred_correct.
      assert (Hz : (inject_Z dur <= 0)%Q) by (change 0%Q with (inject_Z 0); rewrite <- Zle_Qle; lia).
      rewrite <- (Qplus_0_r (this c0)) at 2. apply Qplus_le_compat; [apply Qle_refl|exact Hz].
    - apply (Sorted_head_le c0 c2 (c1 :: c2 :: clock) Hs). right. left. }
  cbn in Hrun. destruct (decide (c2 < c0 + Qc_of_Z dur)) as [Hlt|_].
  { exfalso. apply (Qclt_not_le _ _ Hlt). exact Hge. }
  injection Hrun as <-. cbn. auto.
Qed.

End LoopProps.

Section P95Rank.

(** X5. With two or more successful latencies, at least two of them are
    greater than or equal to the p95: it never picks the lone maximum. *)
Theorem p95_not_strict_max (xs : list Sample) (p : Qc) :
  (2 <= length (Stats._latencies xs))%nat ->
  Stats.p95_latency_ms xs = Some p ->
  (2 <= length (filter (fun x : Qc => (p <= x)%Qc) (Stats._latencies xs)))%nat.
Proof.
  intros Hn Hp. unfold Stats.p95_latency_ms in Hp.
  set (lat := Stats._latencies xs) in *.
  pose proof (merge_sort_Permutation Qcle lat) as Hperm.
  pose proof (Sorted_merge_sort Qcle lat) as Hsort.
  set (sorted := merge_sort Qcle lat) in *.
  assert (Hlen : length sorted = length lat) by (apply Permutation_length; exact Hperm).
  set (k := Z.to_nat (Stats.p95_index (length sorted))).
  assert (Hk : (k + 2 <= length sorted)%nat).
  { unfold k, Stats.p95_index. rewrite Hlen.
    assert (Hd : (Z.of_nat (length lat) * 95 / 100 < Z.of_nat (length lat))%Z).
    { apply Z.div_lt_upper_bound; lia. }
    lia. }
  assert (Hpk : sorted !! k = Some p).
  { destruct sorted as [|y ys] eqn:Es; [cbn in Hk; lia|].
    rewrite <- nth_error_list_lookup. exact Hp. }
  rewrite <- (Permutation_length (filter_Permutation _ _ _ Hperm)).
  rewrite <- (take_drop k sorted), filter_app, length_app.
  assert (Hd : drop k sorted = p :: drop (S k) sorted).
  { rewrite (drop_S sorted p k Hpk). reflexivity. }
  assert (Hall : Forall (fun x : Qc => (p <= x)%Qc) (drop k sorted)).
  { apply Sorted_StronglySorted in Hsort; [|intros a b c; apply Qcle_trans].
    rewrite <- (take_drop k sorted) in Hsort.
    apply StronglySorted_app_1_r in Hsort.
    rewrite Hd in Hsort |- *. inversion Hsort as [|? ? _ Hrest]; subst.
    constructor; [apply Qcle_refl|exact Hrest]. }
  rewrite (filter_all _ (drop k sorted) Hall), length_drop. lia.
Qed.

End P95Rank.


Lemma latency_order_witness :
  Stats.min_latency_ms scenarioB = Some (Qc_of_Z 10) /\
  (exists a, Stats.avg_latency_ms scenarioB = Some a /\ Qc_of_Z 10 <= a) /\
  (exists p, Stats.p95_latency_ms scenarioB = Some p /\ p ∈ Stats._latencies scenarioB /\
             Qc_of_Z 10 <= p).
Proof.
  assert (H : Stats.min_latency_ms scenarioB = Some (Qc_of_Z 10))
    by (vm_compute; f_equal; apply Qc_is_canon; reflexivity).
  split; [exact H|]. exact (latency_order scenarioB (Qc_of_Z 10) H).
Defined.

Lemma p95_not_strict_max_witness :
  (2 <= length (Stats._latencies scenarioB))%nat /\
  Stats.p95_latency_ms scenarioB = Some (Qc_of_Z 70) /\
  (2 <= length (filter (fun x : Qc => (Qc_of_Z 70 <= x)%Qc) (Stats._latencies scenarioB)))%nat.
Proof.
  assert (H1 : (2 <= length (Stats._latencies scenarioB))%nat) by (vm_compute; lia).
  assert (H2 : Stats.p95_latency_ms scenarioB = Some (Qc_of_Z 70))
    by (vm_compute; f_equal; apply Qc_is_canon; reflexivity).
  split; [exact H1|]. split; [exact H2|].
  exact (p95_not_strict_max scenarioB (Qc_of_Z 70) H1 H2).
Defined.

Lemma record_updates_counts_witness :
  list_contents demo_heap (_samples demo_pm) = Some [] /\
  exists h', PM.record demo_pm (ok_sample 10) demo_heap = Some (tt, h') /\
    option_map fst (PM.total demo_pm h') = Some 1%nat /\
    option_map fst (PM.successes demo_pm h') = Some 1%nat /\
    option_map fst (PM.failures demo_pm h') = Some 0%nat.
Proof.
  assert (H : list_contents demo_heap (_samples demo_pm) = Some []) by reflexivity.
  split; [exact H|].
  exact (record_updates_counts demo_pm demo_heap [] (ok_sample 10) H).
Defined.

Lemma ping_propagates_associate_error_witness :
  ping [] demo_sender
    (mkEchoTransport None (AssocRaises (ValueError "connection refused"))
       (EchoReturns (StDataset (Some 0%Z) 1)) None None) =
  Raise (ValueError "connection refused").
Proof.
  apply (ping_propagates_associate_error [] demo_sender
           (mkEchoTransport None (AssocRaises (ValueError "connection refused"))
              (EchoReturns (StDataset (Some 0%Z) 1)) None None)
           (ValueError "connection refused")); reflexivity.
Defined.

Lemma send_sample_success_iff_witness :
  exists s, (_send_single_dataset [] demo_sender (ok_transport 0 1) []).1 = [] ++ [s] /\
    (truthy (success s) = true <->
     t_assoc (ok_transport 0 1) = AssocReturns true /\
     (exists k, t_store (ok_transport 0 1) = StoreReturns (StDataset (Some 0%Z) k)) /\
     t_release (ok_transport 0 1) = None).
Proof.
  apply (send_sample_success_iff [] demo_sender (ok_transport 0 1) []); reflexivity.
Defined.

Lemma send_shutdown_error_keeps_sample_witness :
  _send_single_dataset [] demo_sender ctor_fails_transport [] =
    ([], Raise (ValueError "invalid AE title")) /\
  _send_single_dataset [] demo_sender shutdown_fails_transport [] =
    ((_send_single_dataset [] demo_sender (ok_transport 0 1) []).1,
     Raise (ValueError "shutdown failed")).
Proof.
  split.
  - apply (proj1 (send_shutdown_error_keeps_sample [] demo_sender ctor_fails_transport [])).
    reflexivity.
  - apply (proj2 (send_shutdown_error_keeps_sample [] demo_sender shutdown_fails_transport [])
             (ValueError "shutdown failed")); reflexivity.
Defined.

Lemma load_test_bad_concurrency_witness :
  load_test_for_duration [] demo_sender [tt] [] 1 (Some 0%Z) None one_shot_clock
    (fun _ => ok_transport 0 1) [] =
  Some (mkRunTrace [] [] (Raise (ValueError "max_workers must be greater than 0"))).
Proof.
  apply (load_test_bad_concurrency [] demo_sender [tt] [] 1 (Some 0%Z) None 0
           (skipn 1 one_shot_clock) (fun _ => ok_transport 0 1) []).
  - vm_compute. reflexivity.
  - intros _. vm_compute. reflexivity.
  - cbn. lia.
Defined.

Lemma load_test_cycles_datasets_witness :
  exists rt,
    load_test_for_duration [] demo_sender [1%nat; 2%nat] [] 1 None (Some (PFin (Qc_of_Z 10)))
      burst_clock (fun _ => ok_transport 0 1) [0%nat; 1%nat; 2%nat] = Some rt /\
    length (rt_submissions rt) = 3%nat /\
    forall k s, rt_submissions rt !! k = Some s ->
      [1%nat; 2%nat] !! (k mod length [1%nat; 2%nat]) = Some (sub_dataset s).
Proof.
  eexists. split; [reflexivity|]. split; [reflexivity|].
  apply (load_test_cycles_datasets [] demo_sender [1%nat; 2%nat] [] 1 None
           (Some (PFin (Qc_of_Z 10))) burst_clock (fun _ => ok_transport 0 1)
           [0%nat; 1%nat; 2%nat]).
  reflexivity.
Defined.

Lemma load_test_sleeps_positive_witness :
  exists rt,
    load_test_for_duration [] demo_sender [tt] [] 1 None (Some (PFin (Qc_of_Z 10)))
      burst_clock (fun _ => ok_transport 0 1) [0%nat; 1%nat; 2%nat] = Some rt /\
    (exists s d, s ∈ rt_submissions rt /\ sub_sleep s = Some d) /\
    forall s d, s ∈ rt_submissions rt -> sub_sleep s = Some d ->
      0 < send_period (target_rate demo_sender (Some (PFin (Qc_of_Z 10)))) /\ 0 < d.
Proof.
  eexists. split; [reflexivity|]. split.
  - do 2 eexists. split; [right; left|reflexivity].
  - apply (load_test_sleeps_positive [] demo_sender [tt] [] 1 None
             (Some (PFin (Qc_of_Z 10))) burst_clock (fun _ => ok_transport 0 1)
             [0%nat; 1%nat; 2%nat]).
    reflexivity.
Defined.


Lemma load_test_nonpositive_duration_witness :
  exists rt,
    load_test_for_duration [] demo_sender [tt] [] 0 None None [0; 0; 0]
      (fun _ => ok_transport 0 1) [] = Some rt /\
    rt_submissions rt = [] /\ rt_metrics rt = [] /\ rt_result rt = Ok 0%nat.
Proof.
  eexists. split; [reflexivity|].
  apply (load_test_nonpositive_duration [] demo_sender [tt] [] 0 None None [0; 0; 0]
           (fun _ => ok_transport 0 1)).
  - vm_compute. reflexivity.
  - intros _. vm_compute. reflexivity.
  - cbn. lia.
  - lia.
  - repeat constructor; apply Qcle_refl.
  - reflexivity.
Defined.
